(** * Anime-Dashboard manifest generators

    A shallow embedding of [tools/generate_manifest.py] (the gacha manifest)
    and [tools/generate_cosmetics.py] (the cosmetics manifest), and the
    properties of their filename-to-metadata rules and directory walks.

    Conventions of the embedding.
    - A Python [str] is a [string]; its characters are [ascii] bytes.  The
      character classes and case mappings of Python ([\d], [str.lower],
      [str.capitalize]) are taken on the ASCII range, bytes above 127 being
      neither digits nor letters.
    - A Python [int] is a [Z].
    - A [dict] is a [gmap] with [string] keys.
    - The operating system is a record of the three things the scripts ask
      of it: the kind of a path, the listing of a directory, and whether the
      output file can be written.  Printing always succeeds. *)

From Stdlib Require Import ZArith Ascii String List Bool Lia.
From stdpp Require Import base option list gmap strings fin_maps.

Local Open Scope Z_scope.

(** ** Python string primitives *)

Module PyStr.

(** [c in '0123456789'] *)
Definition is_digit (c : ascii) : bool :=
  (Ascii.leb "0" c && Ascii.leb c "9")%char.

Definition is_upper (c : ascii) : bool :=
  (Ascii.leb "A" c && Ascii.leb c "Z")%char.

Definition is_lower (c : ascii) : bool :=
  (Ascii.leb "a" c && Ascii.leb c "z")%char.

Definition to_lower (c : ascii) : ascii :=
  if is_upper c then ascii_of_nat (nat_of_ascii c + 32) else c.

Definition to_upper (c : ascii) : ascii :=
  if is_lower c then ascii_of_nat (nat_of_ascii c - 32) else c.

Fixpoint map (f : ascii → ascii) (s : string) : string :=
  match s with
  | EmptyString => EmptyString
  | String c s' => String (f c) (map f s')
  end.

(** [s.lower()] *)
Definition lower (s : string) : string := map to_lower s.

(** [s.capitalize()]: first character upper-cased, the rest lower-cased. *)
Definition capitalize (s : string) : string :=
  match s with
  | EmptyString => EmptyString
  | String c s' => String (to_upper c) (lower s')
  end.

(** [s.replace(old, new)] for one-character [old] and [new]. *)
Definition replace (old new : ascii) (s : string) : string :=
  map (λ c, if Ascii.eqb c old then new else c) s.

(** [s.startswith(p)] *)
Fixpoint startswith (p s : string) : bool :=
  match p, s with
  | EmptyString, _ => true
  | String a p', String b s' => Ascii.eqb a b && startswith p' s'
  | String _ _, EmptyString => false
  end.

(** [s.endswith(p)] *)
Fixpoint endswith (p s : string) : bool :=
  if String.eqb p s then true
  else match s with
       | EmptyString => false
       | String _ s' => endswith p s'
       end.

(** [s.endswith(ps)] for a tuple [ps] of suffixes. *)
Definition endswith_any (ps : list string) (s : string) : bool :=
  existsb (λ p, endswith p s) ps.

(** [p in s] *)
Fixpoint contains (p s : string) : bool :=
  startswith p s ||
  match s with
  | EmptyString => false
  | String _ s' => contains p s'
  end.

(** [sep in s] for a character. *)
Fixpoint mem (sep : ascii) (s : string) : bool :=
  match s with
  | EmptyString => false
  | String c s' => Ascii.eqb c sep || mem sep s'
  end.

(** [s.split(sep)] for a one-character separator: the list of the
    maximal separator-free pieces, never empty. *)
Fixpoint split (sep : ascii) (s : string) : list string :=
  match s with
  | EmptyString => [EmptyString]
  | String c s' =>
      if Ascii.eqb c sep then EmptyString :: split sep s'
      else match split sep s' with
           | [] => [String c EmptyString]
           | w :: ws => String c w :: ws
           end
  end.

(** [sep.join(ws)] *)
Fixpoint join (sep : string) (ws : list string) : string :=
  match ws with
  | [] => EmptyString
  | [w] => w
  | w :: ws' => w +:+ sep +:+ join sep ws'
  end.

(** The longest prefix of [s] made of decimal digits. *)
Fixpoint digits_prefix (s : string) : string :=
  match s with
  | EmptyString => EmptyString
  | String c s' => if is_digit c then String c (digits_prefix s') else EmptyString
  end.

(** [re.search(r'(\d+)', s)]: group 1 of the leftmost match, the match
    being greedy; [None] when there is no match. *)
Fixpoint re_search_digits (s : string) : option string :=
  match s with
  | EmptyString => None
  | String c s' =>
      if is_digit c then Some (digits_prefix s) else re_search_digits s'
  end.

Definition digit_value (c : ascii) : Z := Z.of_nat (nat_of_ascii c) - 48.

Fixpoint int_acc (acc : Z) (s : string) : Z :=
  match s with
  | EmptyString => acc
  | String c s' => int_acc (10 * acc + digit_value c) s'
  end.

(** [int(s)] for a string of decimal digits. *)
Definition int (s : string) : Z := int_acc 0 s.

(** Character-class view of a string, used to state properties. *)
Fixpoint forallb (P : ascii → bool) (s : string) : bool :=
  match s with
  | EmptyString => true
  | String c s' => P c && forallb P s'
  end.

Definition has_digit (s : string) : bool := negb (forallb (λ c, negb (is_digit c)) s).
Definition all_digits (s : string) : bool := forallb is_digit s.
Definition starts_with_digit (s : string) : bool :=
  match s with
  | EmptyString => false
  | String c _ => is_digit c
  end.

End PyStr.

(** ** [generate_manifest.py]: rarity of a gacha image *)

(** The value returned by [get_rarity_from_filename]: an [int] or a [str]. *)
Inductive rarity_value : Type :=
  | PyInt (n : Z)
  | PyStr (s : string).

Definition get_rarity_from_filename (filename : string) : rarity_value :=
  match PyStr.re_search_digits filename with
  | None => PyInt 1
  | Some group1 =>
      let num := PyStr.int group1 in
      if num <=? 2 then PyInt 1
      else if num <=? 4 then PyInt 2
      else if num <=? 6 then PyInt 3
      else if num <=? 8 then PyInt 4
      else if num <=? 10 then PyInt 5
      else PyStr "Prismatic"
  end.


(** ** [os.path] (POSIX flavour) *)

Module OsPath.

(** [s.rfind(c)]: the highest index of [c] in [s], or [-1]. *)
Fixpoint rfind (c : ascii) (s : string) : Z :=
  match s with
  | EmptyString => -1
  | String a s' =>
      let r := rfind c s' in
      if 0 <=? r then r + 1 else if Ascii.eqb a c then 0 else -1
  end.

Fixpoint take (n : nat) (s : string) : string :=
  match n, s with
  | S n', String c s' => String c (take n' s')
  | _, _ => EmptyString
  end.

Fixpoint drop (n : nat) (s : string) : string :=
  match n, s with
  | S n', String _ s' => drop n' s'
  | _, _ => s
  end.

(** [s[i:j]] for [0 <= i]. *)
Definition slice (i j : Z) (s : string) : string :=
  take (Z.to_nat (j - i)) (drop (Z.to_nat i) s).

Definition is_extsep (c : ascii) : bool := Ascii.eqb c ".".

(** [os.path.splitext(p)], that is [genericpath._splitext(p, '/', None, '.')]:
    the split is at the last dot, provided that dot comes after the last
    separator and some character between the two is not a dot. *)
Definition splitext (p : string) : string * string :=
  let sepIndex := rfind "/" p in
  let dotIndex := rfind "." p in
  if (sepIndex <? dotIndex)
     && negb (PyStr.forallb is_extsep (slice (sepIndex + 1) dotIndex p))
  then (take (Z.to_nat dotIndex) p, drop (Z.to_nat dotIndex) p)
  else (p, EmptyString).

(** [os.path.join(a, b)] *)
Definition join (a b : string) : string :=
  if PyStr.startswith "/" b then b
  else if String.eqb a "" || PyStr.endswith "/" a then a +:+ b
  else a +:+ "/" +:+ b.

End OsPath.

(** ** [generate_cosmetics.py]: details of a cosmetic item *)

Definition PACK_COSTS : gmap string Z :=
  <["sakura_pack" := 750]> (<["neon_pack" := 600]> ∅).

Definition RARITY_RULES : gmap string string :=
  <["border" := "common"]> (<["icon" := "common"]>
    (<["animated" := "rare"]> (<["theme" := "epic"]> ∅))).

(** [d.get(k, dflt)] *)
Definition dict_get {V} (d : gmap string V) (k : string) (dflt : V) : V :=
  default dflt (d !! k).

Definition format_name (kebab_case_str : string) : string :=
  PyStr.join " " (List.map PyStr.capitalize (PyStr.split "-" kebab_case_str)).

(** The dictionary [{"id": .., "name": .., "type": .., "rarity": ..}]. *)
Record cosmetic_item : Type := {
  item_id : string;
  item_name : string;
  item_type : string;
  item_rarity : string
}.

Definition get_cosmetic_details (filename : string) : cosmetic_item :=
  let base_name := fst (OsPath.splitext filename) in
  let item_type := hd EmptyString (PyStr.split "-" base_name) in
  let rarity := dict_get RARITY_RULES item_type "common" in
  let rarity :=
    if PyStr.contains "animated" base_name
    then dict_get RARITY_RULES "animated" "rare"
    else rarity in
  {| item_id := base_name;
     item_name := format_name base_name;
     item_type := item_type;
     item_rarity := rarity |}.

(** ** Manifest documents *)

(** The dictionary [{"path": .., "rarity": ..}]. *)
Record gacha_variant : Type := {
  path : string;
  rarity : rarity_value
}.

(** The dictionary [{"name": .., "cost": .., "items": ..}]. *)
Record cosmetic_pack : Type := {
  pack_name : string;
  pack_cost : Z;
  pack_items : list cosmetic_item
}.

(** The dictionary [{"packs": {..}}]. *)
Record cosmetics_manifest : Type := {
  packs : gmap string cosmetic_pack
}.

Inductive document : Type :=
  | GachaDoc (manifest_data : gmap string (gmap string (list gacha_variant)))
  | CosmeticsDoc (manifest_data : cosmetics_manifest).

(** ** The operating system, console and exceptions *)

Inductive file_kind : Type := RegularFile | Directory | OtherKind.

Global Instance file_kind_eq_dec : EqDecision file_kind.
Proof. solve_decision. Defined.

Record os_env : Type := {
  (** kind of the file a path leads to, [None] when there is none *)
  stat : string → option file_kind;
  (** [os.listdir(p)], [None] when it raises [OSError] *)
  listdir : string → option (list string);
  (** whether [open(p, 'w')] followed by [json.dump] succeeds *)
  can_write : string → bool
}.

Definition isdir (os : os_env) (p : string) : bool :=
  bool_decide (stat os p = Some Directory).

Definition isfile (os : os_env) (p : string) : bool :=
  bool_decide (stat os p = Some RegularFile).

(** The lines the scripts print, by the statement that prints them. *)
Inductive message : Type :=
  | MsgStartingScan (root : string)
  | MsgDirectoryNotFound (root : string)
  | MsgFoundPack (pack_id : string)
  | MsgGachaSuccess (output_file : string)
  | MsgFoundAnimes (n : nat)
  | MsgCosmeticsSuccess (output_file : string)
  | MsgFoundPacks (n : nat)
  | MsgWriteFailed (output_file : string).

Inductive event : Type :=
  | Print (m : message)
  | WriteFile (output_file : string) (doc : document).

Inductive exn : Type := OSError (p : string).

Inductive res (A : Type) : Type :=
  | Ok (a : A)
  | Raise (e : exn).
Arguments Ok {A} a.
Arguments Raise {A} e.

(** A computation prints and writes, then returns or raises. *)
Definition M (A : Type) : Type := list event * res A.

Global Instance M_ret : MRet M := λ A a, ([], Ok a).

Global Instance M_bind : MBind M := λ A B f m,
  match m with
  | (t, Ok a) => let '(t', r) := f a in (t ++ t', r)
  | (t, Raise e) => (t, Raise e)
  end.

Definition emit (e : event) : M unit := ([e], Ok tt).
Definition print (m : message) : M unit := emit (Print m).

Definition os_listdir (os : os_env) (p : string) : M (list string) :=
  match listdir os p with
  | Some names => mret names
  | None => ([], Raise (OSError p))
  end.

(** [for x in xs: body], the loop carrying the state [s]. *)
Fixpoint for_each {X S : Type} (xs : list X) (body : X → S → M S) (s : S) : M S :=
  match xs with
  | [] => mret s
  | x :: xs' => s' ← body x s; for_each xs' body s'
  end.

(** ** [generate_manifest.py]: the gacha walk *)

Module Gacha.

Definition GACHA_ROOT_DIR : string := "images/gacha".
Definition OUTPUT_FILE : string := "gacha-manifest.json".
Definition IMAGE_EXTENSIONS : list string :=
  [".jpg"; ".jpeg"; ".png"; ".webp"; ".gif"].

(** The body of the loop over [os.listdir(character_path)]. *)
Definition scan_image (character_path : string)
    (variant_list : list gacha_variant) (image_file : string) : list gacha_variant :=
  if PyStr.endswith_any IMAGE_EXTENSIONS (PyStr.lower image_file) then
    let rarity := get_rarity_from_filename image_file in
    let relative_path :=
      PyStr.replace "\" "/" (OsPath.join character_path image_file) in
    variant_list ++ [{| path := relative_path; rarity := rarity |}]
  else variant_list.

(** The body of the loop over [os.listdir(anime_path)]. *)
Definition scan_character (os : os_env) (anime_name anime_path : string)
    (character_name : string)
    (manifest_data : gmap string (gmap string (list gacha_variant)))
    : M (gmap string (gmap string (list gacha_variant))) :=
  let character_path := OsPath.join anime_path character_name in
  if isdir os character_path then
    image_files ← os_listdir os character_path;
    let variant_list := fold_left (scan_image character_path) image_files [] in
    match variant_list with
    | _ :: _ =>
        (* manifest_data[anime_name][character_name] = variant_list *)
        mret (alter (insert character_name variant_list) anime_name manifest_data)
    | [] => mret manifest_data
    end
  else mret manifest_data.

(** The body of the loop over [os.listdir(GACHA_ROOT_DIR)]. *)
Definition scan_anime (os : os_env) (anime_name : string)
    (manifest_data : gmap string (gmap string (list gacha_variant)))
    : M (gmap string (gmap string (list gacha_variant))) :=
  let anime_path := OsPath.join GACHA_ROOT_DIR anime_name in
  if isdir os anime_path then
    let manifest_data := <[anime_name := ∅]> manifest_data in
    character_names ← os_listdir os anime_path;
    for_each character_names (scan_character os anime_name anime_path) manifest_data
  else mret manifest_data.

Definition create_gacha_manifest (os : os_env) : M unit :=
  print (MsgStartingScan GACHA_ROOT_DIR);;
  if negb (isdir os GACHA_ROOT_DIR) then
    print (MsgDirectoryNotFound GACHA_ROOT_DIR)
  else
    anime_names ← os_listdir os GACHA_ROOT_DIR;
    manifest_data ← for_each anime_names (scan_anime os) ∅;
    if can_write os OUTPUT_FILE then
      emit (WriteFile OUTPUT_FILE (GachaDoc manifest_data));;
      print (MsgGachaSuccess OUTPUT_FILE);;
      print (MsgFoundAnimes (size manifest_data))
    else print (MsgWriteFailed OUTPUT_FILE).

End Gacha.

(** ** [generate_cosmetics.py]: the cosmetics walk *)

Module Cosmetics.

Definition COSMETICS_ROOT_DIR : string := "cosmetics/packs".
Definition OUTPUT_FILE : string := "cosmetics-manifest.json".

(** The body of the loop over [os.listdir(pack_path)]. *)
Definition scan_item (os : os_env) (pack_path : string)
    (pack_items : list cosmetic_item) (item_file : string) : list cosmetic_item :=
  if isfile os (OsPath.join pack_path item_file) then
    let item_details := get_cosmetic_details item_file in
    pack_items ++ [item_details]
  else pack_items.

(** The body of the loop over [os.listdir(COSMETICS_ROOT_DIR)]. *)
Definition scan_pack (os : os_env) (pack_id : string)
    (manifest_data : cosmetics_manifest) : M cosmetics_manifest :=
  let pack_path := OsPath.join COSMETICS_ROOT_DIR pack_id in
  if isdir os pack_path then
    print (MsgFoundPack pack_id);;
    item_files ← os_listdir os pack_path;
    let pack_items := fold_left (scan_item os pack_path) item_files [] in
    match pack_items with
    | _ :: _ =>
        mret {| packs :=
          <[pack_id := {| pack_name := format_name (PyStr.replace "_" "-" pack_id);
                          pack_cost := dict_get PACK_COSTS pack_id 1000;
                          pack_items := pack_items |}]> (packs manifest_data) |}
    | [] => mret manifest_data
    end
  else mret manifest_data.

Definition create_cosmetics_manifest (os : os_env) : M unit :=
  print (MsgStartingScan COSMETICS_ROOT_DIR);;
  let manifest_data := {| packs := ∅ |} in
  if negb (isdir os COSMETICS_ROOT_DIR) then
    print (MsgDirectoryNotFound COSMETICS_ROOT_DIR)
  else
    pack_ids ← os_listdir os COSMETICS_ROOT_DIR;
    manifest_data ← for_each pack_ids (scan_pack os) manifest_data;
    if can_write os OUTPUT_FILE then
      emit (WriteFile OUTPUT_FILE (CosmeticsDoc manifest_data));;
      print (MsgCosmeticsSuccess OUTPUT_FILE);;
      print (MsgFoundPacks (size (packs manifest_data)))
    else print (MsgWriteFailed OUTPUT_FILE).

End Cosmetics.

(** ** Observing a run *)

Definition trace {A} (run : M A) : list event := fst run.
Definition outcome {A} (run : M A) : res A := snd run.

(** The document a run wrote to [output_file], if it wrote one. *)
Fixpoint written (output_file : string) (t : list event) : option document :=
  match t with
  | [] => None
  | WriteFile f doc :: t' => if String.eqb f output_file then Some doc else written output_file t'
  | Print _ :: t' => written output_file t'
  end.


Definition prints_only (t : list event) : Prop :=
  Forall (λ e, ∃ m, e = Print m) t.

(** ** What the walks compute, in closed form

    The loops of the two scripts are summarised by maps and filters over
    the directory listings; the summaries are proved equal to the loops in
    the second part of the file. *)

(** [bool(l)] for a list: whether it has an element. *)
Definition truthy {A} (l : list A) : bool :=
  match l with
  | [] => false
  | _ :: _ => true
  end.

(** The names [os.listdir(p)] returns, none when it raises. *)
Definition listing (os : os_env) (p : string) : list string :=
  default [] (listdir os p).

(** The names a real file system gives its entries: not empty, no '/'. *)
Definition valid_name (n : string) : Prop :=
  n ≠ "" ∧ PyStr.mem "/" n = false.

Definition valid_names (os : os_env) : Prop :=
  ∀ p n, n ∈ listing os p → valid_name n.

Module GachaSummary.

Definition is_image (image_file : string) : bool :=
  PyStr.endswith_any Gacha.IMAGE_EXTENSIONS (PyStr.lower image_file).

Definition variant_of (character_path image_file : string) : gacha_variant :=
  {| path := PyStr.replace "\" "/" (OsPath.join character_path image_file);
     rarity := get_rarity_from_filename image_file |}.

Definition variants (os : os_env) (character_path : string) : list gacha_variant :=
  List.map (variant_of character_path) (List.filter is_image (listing os character_path)).

Definition anime_path (anime_name : string) : string :=
  OsPath.join Gacha.GACHA_ROOT_DIR anime_name.

Definition character_path (anime_name character_name : string) : string :=
  OsPath.join (anime_path anime_name) character_name.

(** A character is kept when it is a directory with at least one variant. *)
Definition keeps_character (os : os_env) (anime_name character_name : string) : bool :=
  isdir os (character_path anime_name character_name)
  && truthy (variants os (character_path anime_name character_name)).

(** One round of the loop over the characters of an anime. *)
Definition char_step (os : os_env) (anime_name : string)
    (chars : gmap string (list gacha_variant)) (c : string)
    : gmap string (list gacha_variant) :=
  if keeps_character os anime_name c
  then <[c := variants os (character_path anime_name c)]> chars
  else chars.

Definition characters (os : os_env) (anime_name : string)
    : gmap string (list gacha_variant) :=
  fold_left (char_step os anime_name) (listing os (anime_path anime_name)) ∅.

(** One round of the loop over the animes. *)
Definition anime_step (os : os_env)
    (m : gmap string (gmap string (list gacha_variant))) (a : string)
    : gmap string (gmap string (list gacha_variant)) :=
  if isdir os (anime_path a) then <[a := characters os a]> m else m.

Definition manifest (os : os_env) : gmap string (gmap string (list gacha_variant)) :=
  fold_left (anime_step os) (listing os Gacha.GACHA_ROOT_DIR) ∅.

(** The four components of a variant's path, put together with '/'. *)
Definition joined (anime_name character_name image_file : string) : string :=
  Gacha.GACHA_ROOT_DIR +:+ "/" +:+ anime_name +:+ "/" +:+ character_name
    +:+ "/" +:+ image_file.

(** The variants of a written manifest, with where they come from. *)
Definition emitted (os : os_env) (anime_name character_name image_file : string)
    (v : gacha_variant) : Prop :=
  ∃ m chars vl,
    written Gacha.OUTPUT_FILE (trace (Gacha.create_gacha_manifest os)) = Some (GachaDoc m)
    ∧ m !! anime_name = Some chars
    ∧ chars !! character_name = Some vl
    ∧ image_file ∈ listing os (character_path anime_name character_name)
    ∧ is_image image_file = true
    ∧ v = variant_of (character_path anime_name character_name) image_file
    ∧ v ∈ vl.

(** Every emitted path is the plain '/'-join of its four components. *)
Definition paths_are_joined (os : os_env) : Prop :=
  ∀ a c f v, emitted os a c f v → path v = joined a c f.

End GachaSummary.

Module CosmeticsSummary.

Definition pack_path (pack_id : string) : string :=
  OsPath.join Cosmetics.COSMETICS_ROOT_DIR pack_id.

Definition is_item (os : os_env) (pack_id item_file : string) : bool :=
  isfile os (OsPath.join (pack_path pack_id) item_file).

Definition items (os : os_env) (pack_id : string) : list cosmetic_item :=
  List.map get_cosmetic_details
    (List.filter (is_item os pack_id) (listing os (pack_path pack_id))).

Definition pack_of (os : os_env) (pack_id : string) : cosmetic_pack :=
  {| pack_name := format_name (PyStr.replace "_" "-" pack_id);
     pack_cost := dict_get PACK_COSTS pack_id 1000;
     pack_items := items os pack_id |}.

(** A pack is kept when it is a directory with at least one item. *)
Definition keeps_pack (os : os_env) (pack_id : string) : bool :=
  isdir os (pack_path pack_id) && truthy (items os pack_id).

(** One round of the loop over the packs. *)
Definition pack_step (os : os_env) (m : cosmetics_manifest) (d : string)
    : cosmetics_manifest :=
  {| packs := if keeps_pack os d then <[d := pack_of os d]> (packs m) else packs m |}.

Definition pack_map (os : os_env) : gmap string cosmetic_pack :=
  fold_left
    (λ m d, if keeps_pack os d then <[d := pack_of os d]> m else m)
    (listing os Cosmetics.COSMETICS_ROOT_DIR) ∅.

End CosmeticsSummary.

(** ** A concrete file system, given by a table of paths *)

Inductive entry : Type :=
  | EFile
  | EDir (names : list string)
  | EOther.

Fixpoint table_lookup (t : list (string * entry)) (p : string) : option entry :=
  match t with
  | [] => None
  | (q, e) :: t' => if String.eqb q p then Some e else table_lookup t' p
  end.

Definition table_env (t : list (string * entry)) (writable : bool) : os_env :=
  {| stat p := match table_lookup t p with
               | Some EFile => Some RegularFile
               | Some (EDir _) => Some Directory
               | Some EOther => Some OtherKind
               | None => None
               end;
     listdir p := match table_lookup t p with
                  | Some (EDir names) => Some names
                  | _ => None
                  end;
     can_write _ := writable |}.

(** Whether a name is valid, and whether all names of a table are. *)
Definition valid_nameb (n : string) : bool :=
  negb (String.eqb n "") && negb (PyStr.mem "/" n).

Definition valid_tableb (t : list (string * entry)) : bool :=
  forallb (λ '(_, e), match e with
                      | EDir names => forallb valid_nameb names
                      | _ => true
                      end) t.

(** A working tree with both roots. *)
Definition demo_table : list (string * entry) :=
  [ ("images", EDir ["gacha"]);
    ("images/gacha", EDir ["Naruto"; "Bleach"; "README.md"]);
    ("images/gacha/README.md", EFile);
    ("images/gacha/Naruto", EDir ["Sasuke"; "Empty"; "cover.png"]);
    ("images/gacha/Naruto/cover.png", EFile);
    ("images/gacha/Naruto/Sasuke",
       EDir ["Sasuke-1.jpg"; "Sasuke-7.PNG"; "notes.txt"; "old"]);
    ("images/gacha/Naruto/Sasuke/Sasuke-1.jpg", EFile);
    ("images/gacha/Naruto/Sasuke/Sasuke-7.PNG", EFile);
    ("images/gacha/Naruto/Sasuke/notes.txt", EFile);
    ("images/gacha/Naruto/Sasuke/old", EDir []);
    ("images/gacha/Naruto/Empty", EDir ["notes.txt"]);
    ("images/gacha/Naruto/Empty/notes.txt", EFile);
    ("images/gacha/Bleach", EDir ["Nobody"]);
    ("images/gacha/Bleach/Nobody", EDir []);
    ("cosmetics", EDir ["packs"]);
    ("cosmetics/packs", EDir ["sakura_pack"; "starter"; "empty_pack"; "LICENSE"]);
    ("cosmetics/packs/LICENSE", EFile);
    ("cosmetics/packs/sakura_pack",
       EDir ["border-sakura-solid.png"; "animated-icon-blue.gif"; "raw"]);
    ("cosmetics/packs/sakura_pack/border-sakura-solid.png", EFile);
    ("cosmetics/packs/sakura_pack/animated-icon-blue.gif", EFile);
    ("cosmetics/packs/sakura_pack/raw", EDir []);
    ("cosmetics/packs/starter", EDir ["theme-dark.css"; "notes.txt"]);
    ("cosmetics/packs/starter/theme-dark.css", EFile);
    ("cosmetics/packs/starter/notes.txt", EFile);
    ("cosmetics/packs/empty_pack", EDir []) ].

Definition demo_env : os_env := table_env demo_table true.

(** A working tree where a character directory holds a directory whose
    name looks like an image. *)
Definition nested_dir_table : list (string * entry) :=
  [ ("images/gacha", EDir ["Naruto"]);
    ("images/gacha/Naruto", EDir ["Sasuke"]);
    ("images/gacha/Naruto/Sasuke", EDir ["Sasuke-1.jpg"; "extras.png"]);
    ("images/gacha/Naruto/Sasuke/Sasuke-1.jpg", EFile);
    ("images/gacha/Naruto/Sasuke/extras.png", EDir ["draft.txt"]);
    ("images/gacha/Naruto/Sasuke/extras.png/draft.txt", EFile) ].

Definition nested_dir_env : os_env := table_env nested_dir_table true.

(** A POSIX working tree with a backslash in a file name. *)
Definition backslash_table : list (string * entry) :=
  [ ("images/gacha", EDir ["Naruto"]);
    ("images/gacha/Naruto", EDir ["Sasuke"]);
    ("images/gacha/Naruto/Sasuke", EDir ["alt\3.png"]);
    ("images/gacha/Naruto/Sasuke/alt\3.png", EFile) ].

Definition backslash_env : os_env := table_env backslash_table true.


(** A working tree whose directories exist but cannot be listed. *)
Definition unreadable_env : os_env :=
  {| stat _ := Some Directory; listdir _ := None; can_write _ := true |}.

(** ** Notions used to state the properties *)

(** [p] occurs somewhere in [s]. *)
Definition substring (p s : string) : Prop :=
  ∃ pre post, s = pre +:+ p +:+ post.

(** [w] is the piece of [s] before its first [sep] (all of [s] when [s] has
    no [sep]). *)
Definition first_token (sep : ascii) (w s : string) : Prop :=
  PyStr.mem sep w = false ∧ (s = w ∨ ∃ rest, s = w +:+ String sep rest).





(** The order of the rarity tiers: the stars, then the tag. *)
Definition rarity_rank (r : rarity_value) : Z :=
  match r with
  | PyInt n => n
  | PyStr _ => 6
  end.

(** [p] is the end of [s]. *)
Definition suffix (p s : string) : Prop := ∃ pre, s = pre +:+ p.

(** The lower-cased name ends with one of the image extensions. *)
Definition image_name (image_file : string) : Prop :=
  ∃ ext, ext ∈ Gacha.IMAGE_EXTENSIONS ∧ suffix ext (PyStr.lower image_file).

(** * Properties *)

(** ** Strings *)

Lemma app_nil_l (s : string) : "" +:+ s = s.
Proof. reflexivity. Qed.

Lemma app_cons (c : ascii) (s t : string) : String c s +:+ t = String c (s +:+ t).
Proof. reflexivity. Qed.

(** [String.append] does not reduce under [simpl]; push it inwards by hand. *)
Ltac str_simpl := repeat (rewrite ?app_nil_l, ?app_cons in *; simpl in * ).

Section StringFacts.

Lemma app_nil_r (s : string) : s +:+ "" = s.
Proof. induction s as [|c s IH]; str_simpl; [done | by rewrite IH]. Qed.

Lemma app_assoc (s t u : string) : (s +:+ t) +:+ u = s +:+ t +:+ u.
Proof. induction s as [|c s IH]; str_simpl; [done | by rewrite IH]. Qed.

Lemma forallb_app P (s t : string) :
  PyStr.forallb P (s +:+ t) = PyStr.forallb P s && PyStr.forallb P t.
Proof.
  induction s as [|c s IH]; str_simpl; [done|].
  rewrite IH. by rewrite andb_assoc.
Qed.

Lemma digits_prefix_run (run post : string) :
  PyStr.all_digits run = true →
  PyStr.starts_with_digit post = false →
  PyStr.digits_prefix (run +:+ post) = run.
Proof.
  unfold PyStr.all_digits.
  intros Hrun Hpost. induction run as [|c run IH]; str_simpl.
  - destruct post as [|d post]; simpl in *; [done | by rewrite Hpost].
  - apply andb_prop in Hrun as [Hc Hrun]. rewrite Hc. f_equal. by apply IH.
Qed.


Lemma re_search_digits_first_run (pre run post : string) :
  PyStr.has_digit pre = false →
  run ≠ "" →
  PyStr.all_digits run = true →
  PyStr.starts_with_digit post = false →
  PyStr.re_search_digits (pre +:+ run +:+ post) = Some run.
Proof.
  unfold PyStr.has_digit. rewrite negb_false_iff.
  intros Hpre Hne Hrun Hpost. induction pre as [|c pre IH].
  - destruct run as [|d run]; [done|].
    pose proof (digits_prefix_run _ _ Hrun Hpost) as Hp.
    unfold PyStr.all_digits in Hrun. str_simpl.
    apply andb_prop in Hrun as [Hd _]. rewrite Hd in *. by rewrite Hp.
  - str_simpl. apply andb_prop in Hpre as [Hc Hpre]. apply negb_true_iff in Hc.
    rewrite Hc. by apply IH.
Qed.



Lemma int_acc_snoc acc (s : string) (c : ascii) :
  PyStr.int_acc acc (s +:+ String c "") = 10 * PyStr.int_acc acc s + PyStr.digit_value c.
Proof. revert acc. induction s as [|d s IH]; intros acc; str_simpl; [done | apply IH]. Qed.

(** [int] reads a numeral in base ten, most significant digit first. *)
Lemma int_snoc (s : string) (c : ascii) :
  PyStr.int (s +:+ String c "") = 10 * PyStr.int s + PyStr.digit_value c.
Proof. apply int_acc_snoc. Qed.






Lemma split_free sep (w : string) :
  PyStr.mem sep w = false → PyStr.split sep w = [w].
Proof.
  induction w as [|c w IH]; simpl; [done|].
  intros [Hc Hw]%orb_false_elim. rewrite Hc. by rewrite IH.
Qed.

Lemma split_app_free sep (w r : string) :
  PyStr.mem sep w = false →
  PyStr.split sep (w +:+ String sep r) = w :: PyStr.split sep r.
Proof.
  induction w as [|c w IH]; str_simpl.
  - intros _. by rewrite Ascii.eqb_refl.
  - intros [Hc Hw]%orb_false_elim. rewrite Hc. by rewrite IH.
Qed.



Lemma first_token_unique sep (w s : string) :
  first_token sep w s → w = hd "" (PyStr.split sep s).
Proof.
  intros [Hw [->|[rest ->]]].
  - by rewrite split_free.
  - by rewrite split_app_free.
Qed.

Lemma startswith_spec (p s : string) :
  PyStr.startswith p s = true ↔ ∃ post, s = p +:+ post.
Proof.
  revert s. induction p as [|a p IH]; intros s; simpl.
  - split; [eauto | done].
  - destruct s as [|b s].
    + split; [done | by intros [post Hp]].
    + rewrite andb_true_iff, IH. split.
      * intros [->%Ascii.eqb_eq [post ->]]. by exists post.
      * intros [post Hp]. str_simpl. inversion Hp; subst.
        split; [apply Ascii.eqb_refl | eauto].
Qed.

Lemma contains_spec (p s : string) :
  PyStr.contains p s = true ↔ substring p s.
Proof.
  unfold substring. induction s as [|c s IH]; simpl.
  - rewrite orb_false_r, startswith_spec. split.
    + intros [post Hp]. by exists "", post.
    + intros ([|? pre] & post & Hp); str_simpl; [eauto | done].
  - rewrite orb_true_iff, startswith_spec, IH. split.
    + intros [[post Hp] | (pre & post & ->)].
      * by exists "", post.
      * by exists (String c pre), post.
    + intros ([|? pre] & post & Hp); str_simpl.
      * left. eauto.
      * right. inversion Hp; subst. eauto.
Qed.

Lemma contains_false (p s : string) :
  PyStr.contains p s = false → ¬ substring p s.
Proof. rewrite <- contains_spec. by intros ->. Qed.







End StringFacts.

(** ** The examples of the docstrings, and a few more *)

Example rarity_docstring : get_rarity_from_filename "Character-5.jpg" = PyInt 3.
Proof. reflexivity. Qed.

Example format_name_docstring : format_name "border-sakura-solid" = "Border Sakura Solid".
Proof. reflexivity. Qed.

Example split_keeps_empty_pieces : PyStr.split "-" "a--b-" = ["a"; ""; "b"; ""].
Proof. reflexivity. Qed.

Example capitalize_lowers_the_rest : PyStr.capitalize "sAKURA" = "Sakura".
Proof. reflexivity. Qed.

Example int_leading_zeros : PyStr.int "0042" = 42.
Proof. reflexivity. Qed.

Example splitext_last_dot : OsPath.splitext "x.tar.gz" = ("x.tar", ".gz").
Proof. reflexivity. Qed.

Example splitext_leading_dot : OsPath.splitext ".bashrc" = (".bashrc", "").
Proof. reflexivity. Qed.

Example image_extension_any_case :
  List.map GachaSummary.is_image ["a.PNG"; "b.Jpeg"; "c.txt"; "png"; ".gif"]
    = [true; true; false; false; true].
Proof. reflexivity. Qed.

(** A listing that fails is an exception that leaves the generator. *)
Example unreadable_root_raises :
  Gacha.create_gacha_manifest unreadable_env =
    ([Print (MsgStartingScan "images/gacha")], Raise (OSError "images/gacha")).
Proof. reflexivity. Qed.

(** A file that cannot be written is reported, and the generator returns. *)
Example write_failure_reported :
  Cosmetics.create_cosmetics_manifest (table_env demo_table false) =
    ([Print (MsgStartingScan "cosmetics/packs");
      Print (MsgFoundPack "sakura_pack");
      Print (MsgFoundPack "starter");
      Print (MsgFoundPack "empty_pack");
      Print (MsgWriteFailed "cosmetics-manifest.json")], Ok tt).
Proof. vm_compute. reflexivity. Qed.

(** ** Rarity of a gacha image *)




(** ** Details of a cosmetic item *)

Lemma rarity_rules_get (ty : string) :
  dict_get RARITY_RULES ty "common" =
    if decide (ty = "animated") then "rare"
    else if decide (ty = "theme") then "epic"
    else "common".
Proof.
  unfold dict_get, RARITY_RULES. rewrite !lookup_insert, lookup_empty.
  repeat case_decide; subst; done.
Qed.


(** C2: the rarity of a cosmetic item is the entry of the fixed table for
    the token before the first '-' of the extension-stripped base name
    (border and icon: common, animated: rare, theme: epic, anything else:
    common), unless the base name contains "animated" somewhere, in which
    case it is "rare" whatever the table says; "animated-theme-sky.png" and
    "theme-animated-x.png" are both rare. *)
Theorem cosmetic_rarity_spec (f ty : string) :
  let base_name := fst (OsPath.splitext f) in
  let by_type := dict_get RARITY_RULES ty "common" in
  first_token "-" ty base_name →
  (ty = "border" ∨ ty = "icon" → by_type = "common") ∧
  (ty = "animated" → by_type = "rare") ∧
  (ty = "theme" → by_type = "epic") ∧
  (ty ∉ ["border"; "icon"; "animated"; "theme"] → by_type = "common") ∧
  (substring "animated" base_name →
     item_rarity (get_cosmetic_details f) = "rare") ∧
  (¬ substring "animated" base_name →
     item_rarity (get_cosmetic_details f) = by_type) ∧
  item_rarity (get_cosmetic_details "animated-theme-sky.png") = "rare" ∧
  item_rarity (get_cosmetic_details "theme-animated-x.png") = "rare" ∧
  dict_get RARITY_RULES "theme" "common" = "epic".
Proof.
  intros base_name by_type Hty.
  apply first_token_unique in Hty.
  split_and!; try reflexivity.
  - by intros [-> | ->].
  - by intros ->.
  - by intros ->.
  - intros Hnot. unfold by_type. rewrite rarity_rules_get.
    repeat case_decide; subst; try done; exfalso; apply Hnot; set_solver.
  - intros Hsub%contains_spec. unfold get_cosmetic_details. simpl.
    fold base_name. by rewrite Hsub.
  - intros Hsub. unfold get_cosmetic_details. simpl. fold base_name.
    destruct (PyStr.contains "animated" base_name) eqn:Hc.
    + by apply contains_spec in Hc.
    + unfold by_type. by rewrite Hty.
Qed.

Lemma cosmetic_rarity_spec_witness :
  item_rarity (get_cosmetic_details "theme-animated-x.png") = "rare" ∧
  item_rarity (get_cosmetic_details "theme-sky.png") = "epic" ∧
  item_rarity (get_cosmetic_details "banner-gold.webp") = "common".
Proof.
  split_and!.
  - assert (first_token "-" "theme" (fst (OsPath.splitext "theme-animated-x.png"))) as Hty.
    { split; [reflexivity | right; by exists "animated-x"]. }
    destruct (cosmetic_rarity_spec "theme-animated-x.png" "theme" Hty)
      as (_ & _ & _ & _ & H & _).
    apply H. by exists "theme-", "-x".
  - assert (first_token "-" "theme" (fst (OsPath.splitext "theme-sky.png"))) as Hty.
    { split; [reflexivity | right; by exists "sky"]. }
    destruct (cosmetic_rarity_spec "theme-sky.png" "theme" Hty)
      as (_ & _ & Htheme & _ & _ & H & _).
    rewrite H; [by apply Htheme | by apply contains_false].
  - assert (first_token "-" "banner" (fst (OsPath.splitext "banner-gold.webp"))) as Hty.
    { split; [reflexivity | right; by exists "gold"]. }
    destruct (cosmetic_rarity_spec "banner-gold.webp" "banner" Hty)
      as (_ & _ & _ & Hother & _ & H & _).
    rewrite H; [apply Hother | by apply contains_false].
    rewrite !not_elem_of_cons. split_and!; (discriminate || apply not_elem_of_nil).
Defined.


(** ** Runs: traces and outcomes *)

(** Binds are taken apart by [trace_bind] and [outcome_bind], not by [simpl]. *)
#[local] Arguments M_bind : simpl never.
#[local] Arguments mbind : simpl never.

Section Runs.

Context {A B : Type}.

Lemma trace_bind (m : M A) (f : A → M B) :
  trace (m ≫= f) =
    trace m ++ match outcome m with Ok a => trace (f a) | Raise _ => [] end.
Proof.
  destruct m as [t [a|e]]; unfold trace, outcome, mbind, M_bind; simpl.
  - by destruct (f a).
  - by rewrite List.app_nil_r.
Qed.

Lemma outcome_bind (m : M A) (f : A → M B) :
  outcome (m ≫= f) =
    match outcome m with Ok a => outcome (f a) | Raise e => Raise e end.
Proof.
  destruct m as [t [a|e]]; unfold outcome, mbind, M_bind; simpl; [|done].
  by destruct (f a).
Qed.

Lemma bind_ok_inv (m : M A) (f : A → M B) (b : B) :
  outcome (m ≫= f) = Ok b → ∃ a, outcome m = Ok a ∧ outcome (f a) = Ok b.
Proof. rewrite outcome_bind. destruct (outcome m); [eauto | done]. Qed.

End Runs.

Lemma prints_only_app (t1 t2 : list event) :
  prints_only t1 → prints_only t2 → prints_only (t1 ++ t2).
Proof. apply Forall_app_2. Qed.


Lemma written_app (f : string) (t1 t2 : list event) :
  prints_only t1 → written f (t1 ++ t2) = written f t2.
Proof.
  induction 1 as [|e t1 [m ->] _ IH]; simpl; done.
Qed.

Lemma listdir_ok_inv (os : os_env) (p : string) (names : list string) :
  outcome (os_listdir os p) = Ok names →
  listdir os p = Some names ∧ listing os p = names.
Proof.
  unfold os_listdir, listing. destruct (listdir os p); [|done].
  by intros [= ->].
Qed.

Lemma listdir_trace (os : os_env) (p : string) : trace (os_listdir os p) = [].
Proof. unfold os_listdir. by destruct (listdir os p). Qed.

Section Loops.

Context {X S : Type} (body : X → S → M S).

Lemma for_each_prints_only (xs : list X) (s : S) :
  (∀ x s, prints_only (trace (body x s))) →
  prints_only (trace (for_each xs body s)).
Proof.
  intros Hbody. revert s. induction xs as [|x xs IH]; intros s; simpl.
  - constructor.
  - rewrite trace_bind. apply prints_only_app; [done|].
    destruct (outcome (body x s)); [apply IH | constructor].
Qed.

(** A loop that returns has computed the fold of its body. *)
Lemma for_each_fold (step : S → X → S) (xs : list X) (s s' : S) :
  (∀ x s s', outcome (body x s) = Ok s' → s' = step s x) →
  outcome (for_each xs body s) = Ok s' → s' = fold_left step xs s.
Proof.
  intros Hbody. revert s. induction xs as [|x xs IH]; intros s; simpl.
  - by intros [= ->].
  - intros (s1 & H1 & H2)%bind_ok_inv. apply Hbody in H1 as ->. by apply IH.
Qed.

(** A loop whose body returns on every element returns. *)
Lemma for_each_returns (xs : list X) (s : S) :
  (∀ x s, x ∈ xs → ∃ s', outcome (body x s) = Ok s') →
  ∃ s', outcome (for_each xs body s) = Ok s'.
Proof.
  revert s. induction xs as [|x xs IH]; intros s Hbody; simpl.
  - by exists s.
  - rewrite outcome_bind. destruct (Hbody x s) as [s1 ->]; [left|].
    apply IH. intros y s2 Hy. apply Hbody. by right.
Qed.

End Loops.

(** Looking a key up after a loop of conditional insertions. *)
Lemma fold_insert_lookup {V} (keep : string → bool) (val : string → V)
    (l : list string) (m0 : gmap string V) (k : string) :
  fold_left (λ m x, if keep x then <[x := val x]> m else m) l m0 !! k =
    if decide (k ∈ l ∧ keep k = true) then Some (val k) else m0 !! k.
Proof.
  revert m0. induction l as [|a l IH]; intros m0; simpl.
  - destruct (decide (k ∈ [] ∧ keep k = true)) as [[H _]|_]; [|done].
    by apply elem_of_nil in H.
  - rewrite IH. destruct (decide (k ∈ l ∧ keep k = true)) as [[Hin Hk]|Hn].
    + rewrite decide_True; [done|]. split; [by right | done].
    + destruct (decide (a = k)) as [->|Hne].
      * destruct (keep k) eqn:Hk.
        -- rewrite lookup_insert_eq, decide_True; [done|]. split; [left | done].
        -- rewrite decide_False; [done|]. by intros [_ ?].
      * assert ((if keep a then <[a:=val a]> m0 else m0) !! k = m0 !! k) as ->.
        { destruct (keep a); [by rewrite lookup_insert_ne | done]. }
        destruct (decide (k ∈ a :: l ∧ keep k = true)) as [[Hin Hk]|_]; [|done].
        apply elem_of_cons in Hin as [->|Hin]; [done|]. by destruct Hn.
Qed.

Lemma truthy_spec {V} (l : list V) : truthy l = true ↔ l ≠ [].
Proof. by destruct l. Qed.

(** ** The cosmetics walk *)

Section CosmeticsWalk.

Import CosmeticsSummary.

Variable os : os_env.

Lemma scan_item_fold (pack_path : string) (files : list string) (acc : list cosmetic_item) :
  fold_left (Cosmetics.scan_item os pack_path) files acc =
    acc ++ List.map get_cosmetic_details
             (List.filter (λ f, isfile os (OsPath.join pack_path f)) files).
Proof.
  revert acc. induction files as [|f files IH]; intros acc; simpl.
  - by rewrite List.app_nil_r.
  - rewrite IH. unfold Cosmetics.scan_item.
    destruct (isfile os (OsPath.join pack_path f)); simpl; [|done].
    by rewrite <- List.app_assoc.
Qed.

Lemma scan_pack_prints_only (pack_id : string) (m : cosmetics_manifest) :
  prints_only (trace (Cosmetics.scan_pack os pack_id m)).
Proof.
  unfold Cosmetics.scan_pack. destruct (isdir os _); [|constructor].
  rewrite trace_bind. simpl. constructor; [by eexists|].
  rewrite trace_bind, listdir_trace. simpl.
  destruct (outcome (os_listdir os _)); [|constructor].
  destruct (fold_left _ _ _); constructor.
Qed.

Lemma scan_pack_ok (pack_id : string) (m m' : cosmetics_manifest) :
  outcome (Cosmetics.scan_pack os pack_id m) = Ok m' → m' = pack_step os m pack_id.
Proof.
  unfold Cosmetics.scan_pack, pack_step, keeps_pack, pack_of, items, is_item.
  fold (pack_path pack_id).
  destruct (isdir os (pack_path pack_id)); simpl.
  - intros (_ & _ & (files & [_ ->]%listdir_ok_inv & H)%bind_ok_inv)%bind_ok_inv.

    rewrite scan_item_fold in H. simpl in H.
    destruct (List.map _ _); simpl in *; injection H as <-; [by destruct m | done].
  - intros [= <-]. by destruct m.
Qed.

Lemma pack_step_fold (l : list string) (m : cosmetics_manifest) :
  packs (fold_left (pack_step os) l m) =
    fold_left (λ g d, if keeps_pack os d then <[d := pack_of os d]> g else g)
      l (packs m).
Proof. revert m. induction l as [|d l IH]; intros m; simpl; [done | by rewrite IH]. Qed.

(** A run that writes the manifest has found the root, has returned, and
    wrote the packs of the closed form. *)
Lemma create_cosmetics_written (doc : document) :
  written Cosmetics.OUTPUT_FILE (trace (Cosmetics.create_cosmetics_manifest os)) = Some doc →
  isdir os Cosmetics.COSMETICS_ROOT_DIR = true
  ∧ outcome (Cosmetics.create_cosmetics_manifest os) = Ok tt
  ∧ doc = CosmeticsDoc {| packs := pack_map os |}.
Proof.
  unfold Cosmetics.create_cosmetics_manifest.
  rewrite trace_bind, outcome_bind. simpl.
  destruct (isdir os Cosmetics.COSMETICS_ROOT_DIR); simpl; [|done].
  rewrite trace_bind, outcome_bind, listdir_trace. simpl.
  destruct (outcome (os_listdir os _)) as [pack_ids|] eqn:Hls; [|done].
  apply listdir_ok_inv in Hls as [_ Hls].
  rewrite trace_bind, outcome_bind.
  rewrite written_app by (apply for_each_prints_only, scan_pack_prints_only).
  destruct (outcome (for_each _ _ _)) as [m|] eqn:Hloop; [|done].
  apply (for_each_fold _ (pack_step os)) in Hloop; [|apply scan_pack_ok].
  destruct (can_write os _); simpl; [|done].
  intros [= <-]. split_and!; [done..|]. f_equal. subst m.
  destruct (fold_left (pack_step os) pack_ids _) as [g] eqn:Hg.
  f_equal. change g with (packs {| packs := g |}). rewrite <- Hg.
  rewrite pack_step_fold. unfold pack_map. by rewrite Hls.
Qed.

Lemma pack_map_lookup (d : string) :
  pack_map os !! d =
    if decide (d ∈ listing os Cosmetics.COSMETICS_ROOT_DIR ∧ keeps_pack os d = true)
    then Some (pack_of os d) else None.
Proof. unfold pack_map. by rewrite fold_insert_lookup, lookup_empty. Qed.

(** The packs of a written manifest. *)
Lemma written_pack (m : cosmetics_manifest) (d : string) (pack : cosmetic_pack) :
  written Cosmetics.OUTPUT_FILE (trace (Cosmetics.create_cosmetics_manifest os))
    = Some (CosmeticsDoc m) →
  packs m !! d = Some pack →
  d ∈ listing os Cosmetics.COSMETICS_ROOT_DIR
  ∧ isdir os (pack_path d) = true
  ∧ items os d ≠ []
  ∧ pack = pack_of os d.
Proof.
  intros (_ & _ & [= ->])%create_cosmetics_written. simpl.
  rewrite pack_map_lookup. destruct (decide _) as [[Hin Hk]|]; [|done].
  intros [= <-]. apply andb_prop in Hk as [Hd Hi%truthy_spec]. done.
Qed.

(** When the root is a directory, the listings succeed and the output can
    be written, the manifest is written. *)
Lemma create_cosmetics_writes :
  isdir os Cosmetics.COSMETICS_ROOT_DIR = true →
  (∀ p, isdir os p = true → is_Some (listdir os p)) →
  can_write os Cosmetics.OUTPUT_FILE = true →
  written Cosmetics.OUTPUT_FILE (trace (Cosmetics.create_cosmetics_manifest os))
    = Some (CosmeticsDoc {| packs := pack_map os |}).
Proof.
  intros Hroot Hls Hw.
  assert (∃ doc, written Cosmetics.OUTPUT_FILE
            (trace (Cosmetics.create_cosmetics_manifest os)) = Some doc) as [doc Hdoc].
  { unfold Cosmetics.create_cosmetics_manifest.
    rewrite trace_bind. simpl. rewrite Hroot. simpl.
    rewrite trace_bind, listdir_trace. simpl. unfold os_listdir at 1.
    destruct (Hls _ Hroot) as [pack_ids ->]. simpl.
    rewrite trace_bind.
    rewrite written_app by (apply for_each_prints_only, scan_pack_prints_only).
    destruct (for_each_returns (Cosmetics.scan_pack os) pack_ids {| packs := ∅ |})
      as [m ->].
    { intros d m _. unfold Cosmetics.scan_pack.
      destruct (isdir os (OsPath.join _ d)) eqn:Hd; [|by eexists].
      rewrite outcome_bind. simpl. rewrite outcome_bind. unfold os_listdir.
      destruct (Hls _ Hd) as [files ->]. simpl.
      destruct (fold_left _ _ _); by eexists. }
    rewrite Hw. by eexists. }
  rewrite Hdoc. by apply create_cosmetics_written in Hdoc as (_ & _ & ->).
Qed.

End CosmeticsWalk.

(** ** The gacha walk *)

Section GachaWalk.

Import GachaSummary.

Variable os : os_env.

Lemma scan_image_fold (cp : string) (files : list string) (acc : list gacha_variant) :
  fold_left (Gacha.scan_image cp) files acc =
    acc ++ List.map (variant_of cp) (List.filter is_image files).
Proof.
  revert acc. induction files as [|f files IH]; intros acc; simpl.
  - by rewrite List.app_nil_r.
  - rewrite IH. unfold Gacha.scan_image. fold (is_image f).
    destruct (is_image f); simpl; [|done].
    by rewrite <- List.app_assoc.
Qed.

Lemma scan_character_trace (a c : string) m :
  trace (Gacha.scan_character os a (anime_path a) c m) = [].
Proof.
  unfold Gacha.scan_character. destruct (isdir os _); [|done].
  rewrite trace_bind, listdir_trace. simpl.
  destruct (outcome (os_listdir os _)); [|done].
  by destruct (fold_left _ _ _).
Qed.

Lemma scan_character_ok (a c : string) m m' :
  outcome (Gacha.scan_character os a (anime_path a) c m) = Ok m' →
  m' = alter (λ chars, char_step os a chars c) a m.
Proof.
  unfold Gacha.scan_character, char_step, keeps_character, variants.
  fold (character_path a c).
  destruct (isdir os (character_path a c)); simpl.
  - intros (files & [_ ->]%listdir_ok_inv & H)%bind_ok_inv.
    rewrite scan_image_fold in H. simpl in H.
    destruct (List.map _ _); simpl in *; injection H as <-; [|done].
    by rewrite alter_id.
  - intros [= <-]. by rewrite alter_id.
Qed.

Lemma alter_fold (a : string) (cl : list string)
    (m : gmap string (gmap string (list gacha_variant))) :
  fold_left (λ m c, alter (λ chars, char_step os a chars c) a m) cl m =
    alter (λ chars, fold_left (char_step os a) cl chars) a m.
Proof.
  revert m. induction cl as [|c cl IH]; intros m; simpl.
  - by rewrite alter_id.
  - by rewrite IH, alter_alter_eq.
Qed.

Lemma scan_anime_trace (a : string) m : trace (Gacha.scan_anime os a m) = [].
Proof.
  unfold Gacha.scan_anime. fold (anime_path a).
  destruct (isdir os _); [|done].
  rewrite trace_bind, listdir_trace. simpl.
  destruct (outcome (os_listdir os _)) as [cl|]; [|done].
  generalize (<[a:=∅]> m). induction cl as [|c cl IH]; intros m0; simpl; [done|].
  rewrite trace_bind, scan_character_trace. simpl.
  destruct (outcome _); [apply IH | done].
Qed.

Lemma scan_anime_ok (a : string) m m' :
  outcome (Gacha.scan_anime os a m) = Ok m' → m' = anime_step os m a.
Proof.
  unfold Gacha.scan_anime, anime_step. fold (anime_path a).
  destruct (isdir os (anime_path a)); simpl.
  - intros (cl & [_ Hcl]%listdir_ok_inv & H)%bind_ok_inv.
    apply (for_each_fold _ (λ m c, alter (λ chars, char_step os a chars c) a m)) in H;
      [|intros c ? ?; apply scan_character_ok].
    rewrite alter_fold, alter_insert_eq in H. unfold characters. by rewrite Hcl.
  - by intros [= <-].
Qed.

(** A run that writes the manifest has found the root, has returned, and
    wrote the manifest of the closed form. *)
Lemma create_gacha_written (doc : document) :
  written Gacha.OUTPUT_FILE (trace (Gacha.create_gacha_manifest os)) = Some doc →
  isdir os Gacha.GACHA_ROOT_DIR = true
  ∧ outcome (Gacha.create_gacha_manifest os) = Ok tt
  ∧ doc = GachaDoc (manifest os).
Proof.
  unfold Gacha.create_gacha_manifest.
  rewrite trace_bind, outcome_bind. simpl.
  destruct (isdir os Gacha.GACHA_ROOT_DIR); simpl; [|done].
  rewrite trace_bind, outcome_bind, listdir_trace. simpl.
  destruct (outcome (os_listdir os _)) as [anime_names|] eqn:Hls; [|done].
  apply listdir_ok_inv in Hls as [_ Hls].
  rewrite trace_bind, outcome_bind.
  rewrite written_app; cycle 1.
  { apply for_each_prints_only. intros a m. rewrite scan_anime_trace. constructor. }
  destruct (outcome (for_each _ _ _)) as [m|] eqn:Hloop; [|done].
  apply (for_each_fold _ (anime_step os)) in Hloop; [|apply scan_anime_ok].
  destruct (can_write os _); simpl; [|done].
  intros [= <-]. split_and!; [done..|]. f_equal. subst m.
  unfold manifest. by rewrite Hls.
Qed.

Lemma manifest_lookup (a : string) :
  manifest os !! a =
    if decide (a ∈ listing os Gacha.GACHA_ROOT_DIR ∧ isdir os (anime_path a) = true)
    then Some (characters os a) else None.
Proof.
  unfold manifest, anime_step.
  by rewrite (fold_insert_lookup (λ a, isdir os (anime_path a)) (characters os)),
    lookup_empty.
Qed.

Lemma characters_lookup (a c : string) :
  characters os a !! c =
    if decide (c ∈ listing os (anime_path a) ∧ keeps_character os a c = true)
    then Some (variants os (character_path a c)) else None.
Proof.
  unfold characters, char_step.
  by rewrite (fold_insert_lookup (keeps_character os a)
                (λ c, variants os (character_path a c))), lookup_empty.
Qed.

(** The animes and characters of a written manifest. *)
Lemma written_character (m : gmap string (gmap string (list gacha_variant)))
    (a c : string) chars vl :
  written Gacha.OUTPUT_FILE (trace (Gacha.create_gacha_manifest os)) = Some (GachaDoc m) →
  m !! a = Some chars →
  chars !! c = Some vl →
  a ∈ listing os Gacha.GACHA_ROOT_DIR
  ∧ isdir os (anime_path a) = true
  ∧ c ∈ listing os (anime_path a)
  ∧ isdir os (character_path a c) = true
  ∧ vl = variants os (character_path a c)
  ∧ vl ≠ [].
Proof.
  intros (_ & _ & [= ->])%create_gacha_written.
  rewrite manifest_lookup. destruct (decide _) as [[Ha Hda]|]; [|done].
  intros [= <-]. rewrite characters_lookup.
  destruct (decide _) as [[Hc Hk]|]; [|done]. intros [= <-].
  apply andb_prop in Hk as [Hdc Hv%truthy_spec]. done.
Qed.

(** When the root is a directory, the listings succeed and the output can
    be written, the manifest is written. *)
Lemma create_gacha_writes :
  isdir os Gacha.GACHA_ROOT_DIR = true →
  (∀ p, isdir os p = true → is_Some (listdir os p)) →
  can_write os Gacha.OUTPUT_FILE = true →
  written Gacha.OUTPUT_FILE (trace (Gacha.create_gacha_manifest os))
    = Some (GachaDoc (manifest os)).
Proof.
  intros Hroot Hls Hw.
  assert (∃ doc, written Gacha.OUTPUT_FILE
            (trace (Gacha.create_gacha_manifest os)) = Some doc) as [doc Hdoc].
  { unfold Gacha.create_gacha_manifest.
    rewrite trace_bind. simpl. rewrite Hroot. simpl.
    rewrite trace_bind, listdir_trace. simpl. unfold os_listdir at 1.
    destruct (Hls _ Hroot) as [anime_names ->]. simpl.
    rewrite trace_bind.
    rewrite written_app; cycle 1.
    { apply for_each_prints_only. intros a m. rewrite scan_anime_trace. constructor. }
    destruct (for_each_returns (Gacha.scan_anime os) anime_names ∅) as [m ->].
    { intros a m _. unfold Gacha.scan_anime.
      destruct (isdir os (OsPath.join _ a)) eqn:Hd; [|by eexists].
      rewrite outcome_bind. unfold os_listdir at 1.
      destruct (Hls _ Hd) as [cl ->]. simpl.
      apply for_each_returns. intros c m1 _. unfold Gacha.scan_character.
      destruct (isdir os (OsPath.join _ c)) eqn:Hc; [|by eexists].
      rewrite outcome_bind. unfold os_listdir at 1.
      destruct (Hls _ Hc) as [files ->]. simpl.
      destruct (fold_left _ _ _); by eexists. }
    rewrite Hw. by eexists. }
  rewrite Hdoc. by apply create_gacha_written in Hdoc as (_ & _ & ->).
Qed.

End GachaWalk.

(** ** Properties of the two manifests *)

Lemma filter_none {X} (P : X → bool) (l : list X) :
  (∀ x, x ∈ l → P x = false) → List.filter P l = [].
Proof.
  induction l as [|x l IH]; intros H; simpl; [done|].
  rewrite (H x) by left. apply IH. intros y Hy. apply H. by right.
Qed.

Lemma isfile_spec (os : os_env) (p : string) :
  isfile os p = true ↔ stat os p = Some RegularFile.
Proof. unfold isfile. apply bool_decide_eq_true. Qed.

Lemma isdir_spec (os : os_env) (p : string) :
  isdir os p = true ↔ stat os p = Some Directory.
Proof. unfold isdir. apply bool_decide_eq_true. Qed.

(** The variants of a character: one for each entry of its directory whose
    name ends like an image, whatever the entry is. *)
Lemma written_variants (os : os_env) m (a c : string) chars vl (v : gacha_variant) :
  written Gacha.OUTPUT_FILE (trace (Gacha.create_gacha_manifest os)) = Some (GachaDoc m) →
  m !! a = Some chars →
  chars !! c = Some vl →
  v ∈ vl ↔
    ∃ image_file,
      image_file ∈ listing os (GachaSummary.character_path a c)
      ∧ GachaSummary.is_image image_file = true
      ∧ v = GachaSummary.variant_of (GachaSummary.character_path a c) image_file.
Proof.
  intros Hw Ha Hc.
  destruct (written_character os m a c chars vl Hw Ha Hc) as (_ & _ & _ & _ & -> & _).
  unfold GachaSummary.variants. rewrite list_elem_of_In, in_map_iff. split.
  - intros (f & <- & [Hin Him]%filter_In). exists f.
    by rewrite list_elem_of_In.
  - intros (f & Hin & Him & ->). exists f. split; [done|].
    apply filter_In. by rewrite <- list_elem_of_In.
Qed.

(** C4, on a character directory that holds a directory named like an
    image: the nested directory "extras.png" is given a variant, next to
    the one of the image file "Sasuke-1.jpg". *)
Theorem gacha_walk_emits_nested_directory :
  stat nested_dir_env "images/gacha/Naruto/Sasuke/extras.png" = Some Directory ∧
  ∃ m chars,
    written Gacha.OUTPUT_FILE (trace (Gacha.create_gacha_manifest nested_dir_env))
      = Some (GachaDoc m)
    ∧ m !! "Naruto" = Some chars
    ∧ chars !! "Sasuke" =
        Some [ {| path := "images/gacha/Naruto/Sasuke/Sasuke-1.jpg"; rarity := PyInt 1 |};
               {| path := "images/gacha/Naruto/Sasuke/extras.png"; rarity := PyInt 1 |} ].
Proof.
  split; [reflexivity|].
  exists (GachaSummary.manifest nested_dir_env),
         (GachaSummary.characters nested_dir_env "Naruto").
  split_and!; vm_compute; reflexivity.
Qed.

(** C5: in a written cosmetics manifest every pack has at least one item,
    and a pack directory without any file has no key; in a written gacha
    manifest every character has at least one variant, while an anime
    directory none of whose entries qualifies as a character is present with
    an empty mapping. *)
Theorem manifests_emptiness (os : os_env) :
  (∀ m d pack,
     written Cosmetics.OUTPUT_FILE (trace (Cosmetics.create_cosmetics_manifest os))
       = Some (CosmeticsDoc m) →
     packs m !! d = Some pack → pack_items pack ≠ []) ∧
  (∀ m d,
     written Cosmetics.OUTPUT_FILE (trace (Cosmetics.create_cosmetics_manifest os))
       = Some (CosmeticsDoc m) →
     (∀ f, f ∈ listing os (CosmeticsSummary.pack_path d) →
           isfile os (OsPath.join (CosmeticsSummary.pack_path d) f) = false) →
     packs m !! d = None) ∧
  (∀ g a chars c vl,
     written Gacha.OUTPUT_FILE (trace (Gacha.create_gacha_manifest os)) = Some (GachaDoc g) →
     g !! a = Some chars → chars !! c = Some vl → vl ≠ []) ∧
  (∀ g a,
     written Gacha.OUTPUT_FILE (trace (Gacha.create_gacha_manifest os)) = Some (GachaDoc g) →
     a ∈ listing os Gacha.GACHA_ROOT_DIR →
     isdir os (GachaSummary.anime_path a) = true →
     (∀ c, c ∈ listing os (GachaSummary.anime_path a) →
           isdir os (GachaSummary.character_path a c) = false
           ∨ ∀ f, f ∈ listing os (GachaSummary.character_path a c) →
                  GachaSummary.is_image f = false) →
     g !! a = Some ∅).
Proof.
  split_and!.
  - intros m d pack Hw Hd.
    destruct (written_pack os m d pack Hw Hd) as (_ & _ & Hne & ->). done.
  - intros m d Hw Hnone.
    destruct (packs m !! d) as [pack|] eqn:Hd; [|done].
    destruct (written_pack os m d pack Hw Hd) as (_ & _ & Hne & _).
    destruct Hne. unfold CosmeticsSummary.items.
    by rewrite (filter_none (CosmeticsSummary.is_item os d) _ Hnone).
  - intros g a chars c vl Hw Ha Hc.
    by destruct (written_character os g a c chars vl Hw Ha Hc) as (_ & _ & _ & _ & _ & ?).
  - intros g a (_ & _ & [= ->])%create_gacha_written Hin Hdir Hnone.
    rewrite manifest_lookup, decide_True by done. f_equal.
    apply map_eq. intros c. rewrite characters_lookup, lookup_empty.
    destruct (decide _) as [[Hc Hk]|]; [|done].
    apply andb_prop in Hk as [Hdc Hv%truthy_spec].
    destruct (Hnone c Hc) as [Hno|Hno]; [congruence|].
    destruct Hv. unfold GachaSummary.variants. by rewrite (filter_none _ _ Hno).
Qed.

Lemma manifests_emptiness_witness :
  pack_items (CosmeticsSummary.pack_of demo_env "sakura_pack") ≠ []
  ∧ CosmeticsSummary.pack_map demo_env !! "empty_pack" = None
  ∧ GachaSummary.variants demo_env "images/gacha/Naruto/Sasuke" ≠ []
  ∧ GachaSummary.manifest demo_env !! "Bleach" = Some ∅.
Proof.
  destruct (manifests_emptiness demo_env) as (H1 & H2 & H3 & H4).
  split_and!.
  - apply (H1 {| packs := CosmeticsSummary.pack_map demo_env |} "sakura_pack");
      vm_compute; reflexivity.
  - apply (H2 {| packs := CosmeticsSummary.pack_map demo_env |} "empty_pack");
      [vm_compute; reflexivity|].
    intros f Hf. vm_compute in Hf. by apply elem_of_nil in Hf.
  - apply (H3 (GachaSummary.manifest demo_env) "Naruto"
              (GachaSummary.characters demo_env "Naruto") "Sasuke");
      vm_compute; reflexivity.
  - apply (H4 (GachaSummary.manifest demo_env) "Bleach").
    + vm_compute; reflexivity.
    + vm_compute. right. left.
    + vm_compute; reflexivity.
    + intros c Hc. vm_compute in Hc.
      apply elem_of_cons in Hc as [->|Hc]; [|by apply elem_of_nil in Hc].
      right. intros f Hf. vm_compute in Hf. by apply elem_of_nil in Hf.
Defined.





Lemma pack_costs_get (d : string) :
  dict_get PACK_COSTS d 1000 =
    if decide (d = "sakura_pack") then 750
    else if decide (d = "neon_pack") then 600
    else 1000.
Proof.
  unfold dict_get, PACK_COSTS. rewrite !lookup_insert, lookup_empty.
  repeat case_decide; subst; done.
Qed.

(** C8: the pack of a non-empty pack directory [d] is in the written
    manifest, and the cost of every pack of the manifest is the entry of its
    directory name in the cost table (sakura_pack: 750, neon_pack: 600),
    or 1000 when the name is not in the table. *)
Theorem pack_cost_spec (os : os_env) (m : cosmetics_manifest) (d : string) :
  written Cosmetics.OUTPUT_FILE (trace (Cosmetics.create_cosmetics_manifest os))
    = Some (CosmeticsDoc m) →
  (d ∈ listing os Cosmetics.COSMETICS_ROOT_DIR →
   isdir os (CosmeticsSummary.pack_path d) = true →
   (∃ f, f ∈ listing os (CosmeticsSummary.pack_path d)
         ∧ isfile os (OsPath.join (CosmeticsSummary.pack_path d) f) = true) →
   ∃ pack, packs m !! d = Some pack) ∧
  (∀ pack, packs m !! d = Some pack →
     pack_cost pack = dict_get PACK_COSTS d 1000
     ∧ (d = "sakura_pack" → pack_cost pack = 750)
     ∧ (d = "neon_pack" → pack_cost pack = 600)
     ∧ (d ≠ "sakura_pack" → d ≠ "neon_pack" → pack_cost pack = 1000)).
Proof.
  intros Hw. split.
  - intros Hin Hdir (f & Hf & Hfile).
    apply create_cosmetics_written in Hw as (_ & _ & [= ->]). simpl.
    rewrite pack_map_lookup, decide_True; [by eexists|].
    split; [done|]. unfold CosmeticsSummary.keeps_pack. rewrite Hdir. simpl.
    apply truthy_spec. unfold CosmeticsSummary.items.
    assert (f ∈ List.filter (CosmeticsSummary.is_item os d)
                  (listing os (CosmeticsSummary.pack_path d))) as Hmem.
    { rewrite list_elem_of_In. apply filter_In. by rewrite <- list_elem_of_In. }
    destruct (List.filter _ _); [by apply elem_of_nil in Hmem | done].
  - intros pack Hd.
    destruct (written_pack os m d pack Hw Hd) as (_ & _ & _ & ->). simpl.
    rewrite pack_costs_get. split_and!; [done | | |].
    + by intros ->.
    + by intros ->.
    + intros H1 H2. by rewrite !decide_False.
Qed.

Lemma pack_cost_spec_witness :
  pack_cost (CosmeticsSummary.pack_of demo_env "sakura_pack") = 750
  ∧ pack_cost (CosmeticsSummary.pack_of demo_env "starter") = 1000
  ∧ is_Some (CosmeticsSummary.pack_map demo_env !! "starter").
Proof.
  assert (written Cosmetics.OUTPUT_FILE
            (trace (Cosmetics.create_cosmetics_manifest demo_env))
          = Some (CosmeticsDoc {| packs := CosmeticsSummary.pack_map demo_env |})) as Hw
    by (vm_compute; reflexivity).
  split_and!.
  - destruct (pack_cost_spec demo_env _ "sakura_pack" Hw) as [_ H].
    destruct (H (CosmeticsSummary.pack_of demo_env "sakura_pack")) as (_ & H750 & _);
      [vm_compute; reflexivity|].
    by apply H750.
  - destruct (pack_cost_spec demo_env _ "starter" Hw) as [_ H].
    destruct (H (CosmeticsSummary.pack_of demo_env "starter")) as (_ & _ & _ & H1000);
      [vm_compute; reflexivity|].
    apply H1000; discriminate.
  - destruct (pack_cost_spec demo_env _ "starter" Hw) as [H _].
    destruct H as [pack Hpack].
    + vm_compute. do 1 right. left.
    + vm_compute; reflexivity.
    + exists "notes.txt". split; [vm_compute; right; left | vm_compute; reflexivity].
    + by exists pack.
Defined.

(** C10: the items of a pack of the written manifest are the details of
    the entries of the pack directory that are regular files, one item for
    each such entry, in the order of the listing; the name of the entry
    plays no part, and entries that are not regular files give no item. *)
Theorem cosmetics_walk_takes_every_file (os : os_env) (m : cosmetics_manifest)
    (d : string) (pack : cosmetic_pack) :
  written Cosmetics.OUTPUT_FILE (trace (Cosmetics.create_cosmetics_manifest os))
    = Some (CosmeticsDoc m) →
  packs m !! d = Some pack →
  pack_items pack =
    List.map get_cosmetic_details
      (List.filter (λ f, isfile os (OsPath.join (CosmeticsSummary.pack_path d) f))
         (listing os (CosmeticsSummary.pack_path d)))
  ∧ (∀ f, f ∈ listing os (CosmeticsSummary.pack_path d) →
          stat os (OsPath.join (CosmeticsSummary.pack_path d) f) = Some RegularFile →
          get_cosmetic_details f ∈ pack_items pack)
  ∧ (∀ item, item ∈ pack_items pack →
       ∃ f, f ∈ listing os (CosmeticsSummary.pack_path d)
            ∧ stat os (OsPath.join (CosmeticsSummary.pack_path d) f) = Some RegularFile
            ∧ item = get_cosmetic_details f)
  ∧ length (pack_items pack) =
      length (List.filter
                (λ f, bool_decide (stat os (OsPath.join (CosmeticsSummary.pack_path d) f)
                                   = Some RegularFile))
                (listing os (CosmeticsSummary.pack_path d))).
Proof.
  intros Hw Hd.
  destruct (written_pack os m d pack Hw Hd) as (_ & _ & _ & ->). simpl.
  unfold CosmeticsSummary.items, CosmeticsSummary.is_item. split_and!.
  - done.
  - intros f Hf Hstat. rewrite list_elem_of_In. apply in_map, filter_In.
    rewrite <- list_elem_of_In. split; [done | by apply isfile_spec].
  - intros item (f & <- & [Hf Hfile]%filter_In)%list_elem_of_In%in_map_iff.
    exists f. rewrite list_elem_of_In. by apply isfile_spec in Hfile.
  - by rewrite length_map.
Qed.

Lemma cosmetics_walk_takes_every_file_witness :
  List.map item_id (pack_items (CosmeticsSummary.pack_of demo_env "starter"))
    = ["theme-dark"; "notes"]
  ∧ List.map item_id (pack_items (CosmeticsSummary.pack_of demo_env "sakura_pack"))
    = ["border-sakura-solid"; "animated-icon-blue"].
Proof.
  assert (written Cosmetics.OUTPUT_FILE
            (trace (Cosmetics.create_cosmetics_manifest demo_env))
          = Some (CosmeticsDoc {| packs := CosmeticsSummary.pack_map demo_env |})) as Hw
    by (vm_compute; reflexivity).
  split.
  - destruct (cosmetics_walk_takes_every_file demo_env _ "starter"
                (CosmeticsSummary.pack_of demo_env "starter") Hw) as [-> _];
      vm_compute; reflexivity.
  - destruct (cosmetics_walk_takes_every_file demo_env _ "sakura_pack"
                (CosmeticsSummary.pack_of demo_env "sakura_pack") Hw) as [-> _];
      vm_compute; reflexivity.
Defined.

(** ** Paths of the gacha variants *)

Lemma mem_startswith (c : ascii) (n : string) :
  PyStr.mem c n = false → PyStr.startswith (String c "") n = false.
Proof.
  destruct n as [|d n]; simpl; [done|].
  intros [Hd _]%orb_false_elim. rewrite Ascii.eqb_sym. by rewrite Hd.
Qed.

Lemma mem_endswith (c : ascii) (n : string) :
  PyStr.mem c n = false → PyStr.endswith (String c "") n = false.
Proof.
  induction n as [|d n IH]; simpl; [done|].
  intros [Hd Hn]%orb_false_elim. rewrite Ascii.eqb_sym, Hd. simpl. by apply IH.
Qed.

Lemma app_not_empty (p n : string) : n ≠ "" → p +:+ n ≠ "".
Proof. destruct p; str_simpl; done. Qed.

Lemma endswith_app (c : ascii) (p n : string) :
  n ≠ "" → PyStr.mem c n = false → PyStr.endswith (String c "") (p +:+ n) = false.
Proof.
  intros Hne Hn. induction p as [|a p IH]; str_simpl; [by apply mem_endswith|].
  rewrite IH. pose proof (app_not_empty p n Hne) as Hp.
  destruct (p +:+ n); [done|]. by destruct (Ascii.eqb c a).
Qed.

Lemma join_valid (p n : string) :
  p ≠ "" → PyStr.endswith "/" p = false → valid_name n →
  OsPath.join p n = p +:+ "/" +:+ n.
Proof.
  intros Hp Hend [Hne Hsep]. unfold OsPath.join.
  rewrite (mem_startswith "/" n Hsep), Hend.
  by apply String.eqb_neq in Hp as ->.
Qed.

Lemma character_path_valid (a c : string) :
  valid_name a → valid_name c →
  GachaSummary.character_path a c =
    Gacha.GACHA_ROOT_DIR +:+ "/" +:+ a +:+ "/" +:+ c
  ∧ GachaSummary.character_path a c ≠ ""
  ∧ PyStr.endswith "/" (GachaSummary.character_path a c) = false.
Proof.
  intros Ha Hc. unfold GachaSummary.character_path, GachaSummary.anime_path.
  rewrite (join_valid Gacha.GACHA_ROOT_DIR a) by done.
  assert (Gacha.GACHA_ROOT_DIR +:+ "/" +:+ a = (Gacha.GACHA_ROOT_DIR +:+ "/") +:+ a) as Hassoc
    by by rewrite app_assoc.
  rewrite join_valid; [| | |done].
  - split_and!.
    + by rewrite !app_assoc.
    + rewrite <- !app_assoc. apply app_not_empty, Hc.
    + rewrite <- !app_assoc. apply endswith_app; apply Hc.
  - rewrite Hassoc. apply app_not_empty, Ha.
  - rewrite Hassoc. apply endswith_app; apply Ha.
Qed.

Lemma replace_app (o n : ascii) (s t : string) :
  PyStr.replace o n (s +:+ t) = PyStr.replace o n s +:+ PyStr.replace o n t.
Proof.
  unfold PyStr.replace. induction s as [|c s IH]; str_simpl; [done | by rewrite IH].
Qed.

Lemma replace_absent (o n : ascii) (s : string) :
  PyStr.mem o s = false → PyStr.replace o n s = s.
Proof.
  unfold PyStr.replace. induction s as [|c s IH]; simpl; [done|].
  intros [Hc Hs]%orb_false_elim. rewrite Hc. by rewrite IH.
Qed.

Lemma mem_replace (o n : ascii) (s : string) :
  o ≠ n → PyStr.mem o (PyStr.replace o n s) = false.
Proof.
  intros Hon. unfold PyStr.replace. induction s as [|c s IH]; simpl; [done|].
  rewrite IH, orb_false_r. destruct (Ascii.eqb_spec c o) as [->|Hc].
  - apply Ascii.eqb_neq. congruence.
  - by apply Ascii.eqb_neq.
Qed.

Lemma mem_app (c : ascii) (s t : string) :
  PyStr.mem c (s +:+ t) = PyStr.mem c s || PyStr.mem c t.
Proof.
  induction s as [|d s IH]; str_simpl; [done|]. by rewrite IH, orb_assoc.
Qed.

Lemma startswith_app (p s : string) : PyStr.startswith p (p +:+ s) = true.
Proof. apply startswith_spec. by exists s. Qed.

Lemma table_listing (t : list (string * entry)) (w : bool) (p : string) :
  listing (table_env t w) p =
    match table_lookup t p with Some (EDir names) => names | _ => [] end.
Proof. unfold listing. simpl. by destruct (table_lookup t p) as [[]|]. Qed.

Lemma valid_nameb_spec (n : string) : valid_nameb n = true → valid_name n.
Proof.
  unfold valid_nameb, valid_name.
  intros [Hne%negb_true_iff%String.eqb_neq Hsep%negb_true_iff]%andb_prop. done.
Qed.

(** A table whose names pass the check is a file system with valid names. *)
Lemma table_env_valid_names (t : list (string * entry)) (w : bool) :
  valid_tableb t = true → valid_names (table_env t w).
Proof.
  intros Ht p n. rewrite table_listing.
  induction t as [|[q e] t IH]; simpl in *.
  - by intros ?%elem_of_nil.
  - apply andb_prop in Ht as [He Ht]. destruct (String.eqb q p); [|by apply IH].
    destruct e as [|names|]; try by intros ?%elem_of_nil.
    intros Hn. apply valid_nameb_spec.
    rewrite forallb_forall in He. apply He. by rewrite <- list_elem_of_In.
Qed.

Lemma emitted_names (os : os_env) (a c f : string) (v : gacha_variant) :
  valid_names os → GachaSummary.emitted os a c f v →
  valid_name a ∧ valid_name c ∧ valid_name f.
Proof.
  intros Hvalid (m & chars & vl & Hw & Ha & Hc & Hf & _).
  destruct (written_character os m a c chars vl Hw Ha Hc) as (Hina & _ & Hinc & _).
  split_and!; eapply Hvalid; eauto.
Qed.

(** Every variant of a written manifest is emitted for some entry. *)
Lemma manifest_variant_emitted (os : os_env) m (a c : string) chars vl
    (v : gacha_variant) :
  written Gacha.OUTPUT_FILE (trace (Gacha.create_gacha_manifest os)) = Some (GachaDoc m) →
  m !! a = Some chars → chars !! c = Some vl → v ∈ vl →
  ∃ f, GachaSummary.emitted os a c f v.
Proof.
  intros Hw Ha Hc Hv.
  destruct (proj1 (written_variants os m a c chars vl v Hw Ha Hc) Hv)
    as (f & Hf & Him & ->).
  exists f, m, chars, vl. done.
Qed.

(** C9 as amended: on a file system whose names are valid, the path of
    every emitted variant is the root directory, the anime name, the
    character name and the file name joined with '/', with every backslash
    then replaced by '/'; it begins with "images/gacha/" and contains no
    backslash; it is the plain join whenever none of the three names has a
    backslash. *)
Theorem gacha_variant_path (os : os_env) (a c f : string) (v : gacha_variant) :
  valid_names os →
  GachaSummary.emitted os a c f v →
  path v = PyStr.replace "\" "/" (GachaSummary.joined a c f)
  ∧ PyStr.startswith "images/gacha/" (path v) = true
  ∧ PyStr.mem "\" (path v) = false
  ∧ (PyStr.mem "\" a = false → PyStr.mem "\" c = false → PyStr.mem "\" f = false →
     path v = GachaSummary.joined a c f).
Proof.
  intros Hvalid Hem.
  destruct (emitted_names os a c f v Hvalid Hem) as (Ha & Hc & Hf).
  destruct Hem as (_ & _ & _ & _ & _ & _ & _ & _ & -> & _).
  destruct (character_path_valid a c Ha Hc) as (Hpath & Hne & Hend).
  assert (path (GachaSummary.variant_of (GachaSummary.character_path a c) f)
          = PyStr.replace "\" "/" (GachaSummary.joined a c f)) as Heq.
  { simpl. rewrite join_valid by done. rewrite Hpath.
    unfold GachaSummary.joined. by rewrite !app_assoc. }
  rewrite Heq. split_and!.
  - done.
  - unfold GachaSummary.joined.
    change (Gacha.GACHA_ROOT_DIR +:+ "/" +:+ a +:+ "/" +:+ c +:+ "/" +:+ f)
      with ("images/gacha/" +:+ a +:+ "/" +:+ c +:+ "/" +:+ f).
    rewrite replace_app. apply startswith_app.
  - by apply mem_replace.
  - intros Hba Hbc Hbf. apply replace_absent. unfold GachaSummary.joined.
    rewrite !mem_app, Hba, Hbc, Hbf. reflexivity.
Qed.

Lemma demo_emitted :
  GachaSummary.emitted demo_env "Naruto" "Sasuke" "Sasuke-7.PNG"
    {| path := "images/gacha/Naruto/Sasuke/Sasuke-7.PNG"; rarity := PyInt 4 |}.
Proof.
  exists (GachaSummary.manifest demo_env), (GachaSummary.characters demo_env "Naruto"),
         (GachaSummary.variants demo_env "images/gacha/Naruto/Sasuke").
  split_and!; try (vm_compute; reflexivity).
  - vm_compute. right. left.
  - vm_compute. right. left.
Defined.

Lemma backslash_emitted :
  GachaSummary.emitted backslash_env "Naruto" "Sasuke" "alt\3.png"
    {| path := "images/gacha/Naruto/Sasuke/alt/3.png"; rarity := PyInt 2 |}.
Proof.
  exists (GachaSummary.manifest backslash_env),
         (GachaSummary.characters backslash_env "Naruto"),
         (GachaSummary.variants backslash_env "images/gacha/Naruto/Sasuke").
  split_and!; try (vm_compute; reflexivity).
  - vm_compute. left.
  - vm_compute. left.
Defined.

Lemma gacha_variant_path_witness :
  PyStr.replace "\" "/" (GachaSummary.joined "Naruto" "Sasuke" "Sasuke-7.PNG")
    = "images/gacha/Naruto/Sasuke/Sasuke-7.PNG"
  ∧ PyStr.replace "\" "/" (GachaSummary.joined "Naruto" "Sasuke" "alt\3.png")
    = "images/gacha/Naruto/Sasuke/alt/3.png".
Proof.
  split.
  - destruct (gacha_variant_path demo_env "Naruto" "Sasuke" "Sasuke-7.PNG" _
                (table_env_valid_names demo_table true eq_refl) demo_emitted)
      as [H _].
    symmetry. exact H.
  - destruct (gacha_variant_path backslash_env "Naruto" "Sasuke" "alt\3.png" _
                (table_env_valid_names backslash_table true eq_refl) backslash_emitted)
      as [H _].
    symmetry. exact H.
Defined.

(** C9 as stated fails on a POSIX file system with a backslash in a file
    name: the variant of "alt\3.png" is emitted with the path
    "images/gacha/Naruto/Sasuke/alt/3.png", which is not the join of the
    four components. *)
Lemma gacha_path_not_joined :
  valid_names backslash_env ∧ ¬ GachaSummary.paths_are_joined backslash_env.
Proof.
  split; [by apply table_env_valid_names|].
  intros H. specialize (H _ _ _ _ backslash_emitted). discriminate H.
Qed.

(** * Further properties of the extractors *)

(** ** Rarity and the digits of the name *)

Lemma re_search_digits_run (run : string) :
  run ≠ "" → PyStr.all_digits run = true → PyStr.re_search_digits run = Some run.
Proof.
  intros Hne Hrun.
  pose proof (re_search_digits_first_run "" run "" eq_refl Hne Hrun eq_refl) as H.
  by rewrite app_nil_l, app_nil_r in H.
Qed.





(** X3: a larger number never gives a lower rarity: the tiers grow with
    the number, "Prismatic" being the highest. *)
Theorem rarity_monotone (run1 run2 : string) :
  run1 ≠ "" → PyStr.all_digits run1 = true →
  run2 ≠ "" → PyStr.all_digits run2 = true →
  PyStr.int run1 ≤ PyStr.int run2 →
  rarity_rank (get_rarity_from_filename run1)
    ≤ rarity_rank (get_rarity_from_filename run2).
Proof.
  intros Hne1 Hrun1 Hne2 Hrun2 Hle. unfold get_rarity_from_filename.
  rewrite (re_search_digits_run _ Hne1 Hrun1), (re_search_digits_run _ Hne2 Hrun2).
  simpl.
  repeat match goal with
         | |- context [Z.leb ?a ?b] => destruct (Z.leb_spec a b)
         end; simpl; lia.
Qed.

Lemma rarity_monotone_witness :
  rarity_rank (get_rarity_from_filename "4") ≤ rarity_rank (get_rarity_from_filename "10").
Proof.
  apply (rarity_monotone "4" "10");
    [discriminate | reflexivity | discriminate | reflexivity | vm_compute; discriminate].
Defined.

(** ** Display names *)



Lemma to_lower_idemp (c : ascii) : PyStr.to_lower (PyStr.to_lower c) = PyStr.to_lower c.
Proof. destruct c as [[] [] [] [] [] [] [] []]; vm_compute; done. Qed.





(** ** Base names and extensions *)

Lemma rfind_absent c (s : string) : PyStr.mem c s = false → OsPath.rfind c s = -1.
Proof.
  induction s as [|a s IH]; simpl; [done|].
  intros [Ha Hs]%orb_false_elim. rewrite (IH Hs), Ha. done.
Qed.

Lemma rfind_app_absent c (s t : string) :
  PyStr.mem c t = false → OsPath.rfind c (s +:+ t) = OsPath.rfind c s.
Proof.
  intros Ht. induction s as [|a s IH]; str_simpl; [by apply rfind_absent|].
  by rewrite IH.
Qed.

Lemma rfind_app_last c (b e : string) :
  PyStr.mem c e = false →
  OsPath.rfind c (b +:+ String c e) = Z.of_nat (String.length b).
Proof.
  intros He. induction b as [|a b IH]; str_simpl.
  - by rewrite (rfind_absent c e He), Ascii.eqb_refl.
  - rewrite IH. destruct (Z.leb_spec 0 (Z.of_nat (String.length b))); lia.
Qed.

Lemma take_app_length (b x : string) : OsPath.take (String.length b) (b +:+ x) = b.
Proof.
  induction b as [|a b IH]; str_simpl; [by destruct x | by rewrite IH].
Qed.

Lemma drop_app_length (b x : string) : OsPath.drop (String.length b) (b +:+ x) = x.
Proof. induction b as [|a b IH]; str_simpl; done. Qed.

(** A file name made of a base name and an extension is split back into
    the two. *)
Lemma splitext_name_extension (b e : string) :
  PyStr.mem "/" b = false →
  PyStr.forallb OsPath.is_extsep b = false →
  PyStr.mem "." e = false →
  PyStr.mem "/" e = false →
  OsPath.splitext (b +:+ String "." e) = (b, String "." e).
Proof.
  intros Hsep Hdots Hdot Hsep'. unfold OsPath.splitext.
  rewrite (rfind_app_last "." b e Hdot).
  rewrite (rfind_app_absent "/" b (String "." e)) by (simpl; by rewrite Hsep').
  rewrite (rfind_absent "/" b Hsep).
  unfold OsPath.slice.
  replace (Z.to_nat (Z.of_nat (String.length b) - (-1 + 1))) with (String.length b) by lia.
  rewrite Nat2Z.id. simpl OsPath.drop at 1.
  rewrite take_app_length, drop_app_length, Hdots.
  destruct (Z.ltb_spec (-1) (Z.of_nat (String.length b))); [done | lia].
Qed.

(** X5: the record of a cosmetic item does not depend on the extension of
    its file: for a base name [b] (no '/', not made of dots only) the id is
    [b] whatever the extension, so two files of a pack that differ only in
    their extension get the same record, id included. *)
Theorem details_ignore_extension (b e1 e2 : string) :
  PyStr.mem "/" b = false →
  PyStr.forallb OsPath.is_extsep b = false →
  PyStr.mem "." e1 = false → PyStr.mem "/" e1 = false →
  PyStr.mem "." e2 = false → PyStr.mem "/" e2 = false →
  item_id (get_cosmetic_details (b +:+ String "." e1)) = b
  ∧ get_cosmetic_details (b +:+ String "." e1)
    = get_cosmetic_details (b +:+ String "." e2).
Proof.
  intros Hsep Hdots Hd1 Hs1 Hd2 Hs2. unfold get_cosmetic_details.
  by rewrite !splitext_name_extension.
Qed.

Lemma details_ignore_extension_witness :
  item_id (get_cosmetic_details "border-sakura.v2.png") = "border-sakura.v2"
  ∧ get_cosmetic_details "border-sakura.v2.png" = get_cosmetic_details "border-sakura.v2.gif".
Proof.
  apply (details_ignore_extension "border-sakura.v2" "png" "gif"); reflexivity.
Defined.

(** X6: a file whose only dot is the first character of its name has no
    extension to remove: the whole name, dot included, is the id of its
    record. *)
Theorem dotfile_details (rest : string) :
  PyStr.mem "." rest = false →
  PyStr.mem "/" rest = false →
  item_id (get_cosmetic_details (String "." rest)) = String "." rest.
Proof.
  intros Hdot Hsep. unfold get_cosmetic_details, OsPath.splitext. simpl.
  rewrite (rfind_absent "." rest Hdot), (rfind_absent "/" rest Hsep). reflexivity.
Qed.

Lemma dotfile_details_witness :
  item_id (get_cosmetic_details ".gitkeep") = ".gitkeep".
Proof. apply (dotfile_details "gitkeep"); reflexivity. Defined.

(** X7: the rarity of a cosmetic item is always one of "common", "rare"
    and "epic"; it is "epic" exactly for the type "theme" with no
    "animated" in the base name. *)
Theorem cosmetic_rarity_range (f : string) :
  item_rarity (get_cosmetic_details f) ∈ ["common"; "rare"; "epic"]
  ∧ (item_rarity (get_cosmetic_details f) = "epic" ↔
       item_type (get_cosmetic_details f) = "theme"
       ∧ ¬ substring "animated" (item_id (get_cosmetic_details f))).
Proof.
  unfold get_cosmetic_details. simpl.
  set (base_name := fst (OsPath.splitext f)).
  set (ty := hd "" (PyStr.split "-" base_name)).
  rewrite rarity_rules_get.
  destruct (PyStr.contains "animated" base_name) eqn:Hc.
  - apply contains_spec in Hc. split; [set_solver|].
    split; [done | by intros [_ ?]].
  - apply contains_false in Hc.
    destruct (decide (ty = "animated")) as [Ha|Ha];
      [|destruct (decide (ty = "theme")) as [Ht|Ht]]; (split; [set_solver|]).
    + split; [done | intros [Ht _]; congruence].
    + done.
    + split; [done | by intros [? _]].
Qed.

(** ** The image filter *)

Lemma endswith_eq (p s : string) :
  PyStr.endswith p s =
    if String.eqb p s then true
    else match s with
         | EmptyString => false
         | String _ s' => PyStr.endswith p s'
         end.
Proof. by destruct s. Qed.

Lemma endswith_spec (p s : string) : PyStr.endswith p s = true ↔ suffix p s.
Proof.
  unfold suffix. split.
  - induction s as [|c s IH]; rewrite endswith_eq.
    + destruct (String.eqb_spec p ""); [|done]. intros _. by exists "".
    + destruct (String.eqb_spec p (String c s)) as [->|_].
      * intros _. by exists "".
      * intros [pre ->]%IH. by exists (String c pre).
  - intros [pre ->]. induction pre as [|c pre IH]; str_simpl.
    + by rewrite endswith_eq, String.eqb_refl.
    + rewrite IH. by destruct (String.eqb _ _).
Qed.

Lemma is_image_spec (f : string) : GachaSummary.is_image f = true ↔ image_name f.
Proof.
  unfold GachaSummary.is_image, PyStr.endswith_any, image_name.
  rewrite existsb_exists. split.
  - intros (ext & Hin & Hend). exists ext.
    by rewrite list_elem_of_In, <- endswith_spec.
  - intros (ext & Hin & Hend). exists ext.
    by rewrite <- list_elem_of_In, endswith_spec.
Qed.

Lemma lower_idemp (s : string) : PyStr.lower (PyStr.lower s) = PyStr.lower s.
Proof.
  unfold PyStr.lower. induction s as [|c s IH]; simpl; [done|].
  by rewrite to_lower_idemp, IH.
Qed.

(** X8: an entry of a character directory adds a variant exactly when its
    lower-cased name ends with one of ".jpg", ".jpeg", ".png", ".webp" and
    ".gif"; the variant goes to the end of the list, and the entries that
    do not match leave the list as it is.  The case of the letters plays no
    part. *)
Theorem scan_image_spec (character_path image_file : string)
    (variant_list : list gacha_variant) :
  (image_name image_file →
     Gacha.scan_image character_path variant_list image_file =
       variant_list ++
         [{| path := PyStr.replace "\" "/" (OsPath.join character_path image_file);
             rarity := get_rarity_from_filename image_file |}]) ∧
  (¬ image_name image_file →
     Gacha.scan_image character_path variant_list image_file = variant_list) ∧
  (image_name (PyStr.lower image_file) ↔ image_name image_file).
Proof.
  unfold Gacha.scan_image. fold (GachaSummary.is_image image_file). split_and!.
  - intros Him%is_image_spec. by rewrite Him.
  - intros Him. destruct (GachaSummary.is_image image_file) eqn:His; [|done].
    by apply is_image_spec in His.
  - unfold image_name. by rewrite lower_idemp.
Qed.

Lemma scan_image_spec_witness :
  Gacha.scan_image "images/gacha/Naruto/Sasuke" [] "Sasuke-7.PNG" =
    [{| path := "images/gacha/Naruto/Sasuke/Sasuke-7.PNG"; rarity := PyInt 4 |}]
  ∧ Gacha.scan_image "images/gacha/Naruto/Sasuke" [] "notes.txt" = [].
Proof.
  split.
  - apply (proj1 (scan_image_spec "images/gacha/Naruto/Sasuke" "Sasuke-7.PNG" [])).
    exists ".png". split; [vm_compute; do 2 right; left | by exists "sasuke-7"].
  - apply (proj1 (proj2 (scan_image_spec "images/gacha/Naruto/Sasuke" "notes.txt" []))).
    intros Him%is_image_spec. discriminate Him.
Defined.

(** ** Whole runs *)



Lemma bind_raise {A B} (t : list event) (e : exn) (f : A → M B) :
  (t, Raise e) ≫= f = (t, Raise e).
Proof. done. Qed.

Section LoopRuns.

Context {X S : Type} (body : X → S → M S).



End LoopRuns.




Section GachaRuns.

Import GachaSummary.

Variable os : os_env.




End GachaRuns.



Section CosmeticsRuns.

Import CosmeticsSummary.

Variable os : os_env.





End CosmeticsRuns.



(** ** What is written, and what escapes *)








Section Exceptions.

Variable os : os_env.




End Exceptions.



(** ** The keys and the lists of the manifests *)

Lemma filter_nonempty {X} (P : X → bool) (l : list X) :
  List.filter P l ≠ [] ↔ ∃ x, x ∈ l ∧ P x = true.
Proof.
  split.
  - intros Hne. destruct (List.filter P l) as [|x l'] eqn:Hf; [done|].
    assert (In x (List.filter P l)) as [Hin Hx]%filter_In by (rewrite Hf; by left).
    exists x. by rewrite list_elem_of_In.
  - intros (x & Hin & Hx) Hf.
    assert (In x (List.filter P l)) as Hin' by (apply filter_In; by rewrite <- list_elem_of_In).
    by rewrite Hf in Hin'.
Qed.

Lemma map_nonempty {X Y} (g : X → Y) (l : list X) : List.map g l ≠ [] ↔ l ≠ [].
Proof. by destruct l. Qed.

(** X13: the keys of a written gacha manifest.  An anime is a key
    exactly when it is an entry of the root that is a directory (other
    entries of the root are passed over); under an anime, a character is a
    key exactly when it is an entry of the anime directory that is a
    directory and that has an entry named like an image. *)
Theorem gacha_manifest_keys (os : os_env)
    (m : gmap string (gmap string (list gacha_variant))) :
  written Gacha.OUTPUT_FILE (trace (Gacha.create_gacha_manifest os)) = Some (GachaDoc m) →
  (∀ a, is_Some (m !! a) ↔
        a ∈ listing os Gacha.GACHA_ROOT_DIR
        ∧ isdir os (OsPath.join Gacha.GACHA_ROOT_DIR a) = true) ∧
  (∀ a chars c, m !! a = Some chars →
     (is_Some (chars !! c) ↔
        c ∈ listing os (OsPath.join Gacha.GACHA_ROOT_DIR a)
        ∧ isdir os (OsPath.join (OsPath.join Gacha.GACHA_ROOT_DIR a) c) = true
        ∧ ∃ f, f ∈ listing os (OsPath.join (OsPath.join Gacha.GACHA_ROOT_DIR a) c)
               ∧ image_name f)).
Proof.
  intros (_ & _ & [= ->])%create_gacha_written. split.
  - intros a. rewrite manifest_lookup. unfold GachaSummary.anime_path.
    destruct (decide _) as [H|H].
    + split; [done | by eexists].
    + split; [by intros [? ?] | done].
  - intros a chars c. rewrite manifest_lookup.
    destruct (decide _) as [_|_]; [|done]. intros [= <-].
    rewrite characters_lookup.
    unfold GachaSummary.keeps_character, GachaSummary.character_path,
      GachaSummary.anime_path, GachaSummary.variants.
    set (cp := OsPath.join (OsPath.join Gacha.GACHA_ROOT_DIR a) c).
    assert (truthy (List.map (GachaSummary.variant_of cp)
                      (List.filter GachaSummary.is_image (listing os cp))) = true
            ↔ ∃ f, f ∈ listing os cp ∧ image_name f) as Hv.
    { rewrite truthy_spec, map_nonempty, filter_nonempty.
      split; intros (f & Hf & Him); exists f; by rewrite is_image_spec in *. }
    rewrite <- Hv.
    destruct (decide _) as [[Hin [Hd Ht]%andb_prop]|Hn].
    + split; [done | by eexists].
    + split; [by intros [? ?]|].
      intros (Hin & Hd & Ht). destruct Hn. by rewrite Hd, Ht.
Qed.

Lemma gacha_manifest_keys_witness :
  is_Some (GachaSummary.manifest demo_env !! "Bleach")
  ∧ ¬ is_Some (GachaSummary.manifest demo_env !! "README.md")
  ∧ ¬ is_Some (GachaSummary.characters demo_env "Naruto" !! "Empty").
Proof.
  destruct (gacha_manifest_keys demo_env (GachaSummary.manifest demo_env)) as [Ha Hc];
    [vm_compute; reflexivity|].
  split_and!.
  - apply Ha. split; [vm_compute; right; left | reflexivity].
  - intros [_ Hd]%Ha. discriminate Hd.
  - intros (_ & _ & f & Hf & Him)%(Hc "Naruto" (GachaSummary.characters demo_env "Naruto")
                                      "Empty" ltac:(vm_compute; reflexivity)).
    vm_compute in Hf. apply elem_of_cons in Hf as [->|Hf]; [|by apply elem_of_nil in Hf].
    apply is_image_spec in Him. discriminate Him.
Defined.



(** X15: the keys of a written cosmetics manifest: a pack is a key
    exactly when it is an entry of the root that is a directory and that
    holds at least one regular file; other entries of the root are passed
    over. *)
Theorem cosmetics_manifest_keys (os : os_env) (m : cosmetics_manifest) (d : string) :
  written Cosmetics.OUTPUT_FILE (trace (Cosmetics.create_cosmetics_manifest os))
    = Some (CosmeticsDoc m) →
  is_Some (packs m !! d) ↔
    d ∈ listing os Cosmetics.COSMETICS_ROOT_DIR
    ∧ isdir os (OsPath.join Cosmetics.COSMETICS_ROOT_DIR d) = true
    ∧ ∃ f, f ∈ listing os (OsPath.join Cosmetics.COSMETICS_ROOT_DIR d)
           ∧ stat os (OsPath.join (OsPath.join Cosmetics.COSMETICS_ROOT_DIR d) f)
             = Some RegularFile.
Proof.
  intros (_ & _ & [= ->])%create_cosmetics_written. simpl.
  rewrite pack_map_lookup.
  unfold CosmeticsSummary.keeps_pack, CosmeticsSummary.items, CosmeticsSummary.pack_path.
  set (pp := OsPath.join Cosmetics.COSMETICS_ROOT_DIR d).
  assert (truthy (List.map get_cosmetic_details
                    (List.filter (CosmeticsSummary.is_item os d) (listing os pp))) = true
          ↔ ∃ f, f ∈ listing os pp ∧ stat os (OsPath.join pp f) = Some RegularFile) as Hv.
  { rewrite truthy_spec, map_nonempty, filter_nonempty.
    split; intros (f & Hf & Hfile); exists f; split; try done; by apply isfile_spec. }
  rewrite <- Hv.
  destruct (decide _) as [[Hin [Hd Ht]%andb_prop]|Hn].
  - split; [done | by eexists].
  - split; [by intros [? ?]|].
    intros (Hin & Hd & Ht). destruct Hn. by rewrite Hd, Ht.
Qed.

Lemma cosmetics_manifest_keys_witness :
  is_Some (CosmeticsSummary.pack_map demo_env !! "starter")
  ∧ ¬ is_Some (CosmeticsSummary.pack_map demo_env !! "LICENSE").
Proof.
  assert (written Cosmetics.OUTPUT_FILE
            (trace (Cosmetics.create_cosmetics_manifest demo_env))
          = Some (CosmeticsDoc {| packs := CosmeticsSummary.pack_map demo_env |})) as Hw
    by (vm_compute; reflexivity).
  split.
  - apply (cosmetics_manifest_keys demo_env _ "starter" Hw).
    split_and!; [vm_compute; right; left | reflexivity |].
    exists "notes.txt". split; [vm_compute; right; left | reflexivity].
  - intros (_ & Hd & _)%(cosmetics_manifest_keys demo_env _ "LICENSE" Hw).
    discriminate Hd.
Defined.

(** ** Paths tell the variants apart *)

Lemma app_sep_inj (sep : ascii) (s1 s2 t1 t2 : string) :
  PyStr.mem sep s1 = false → PyStr.mem sep s2 = false →
  s1 +:+ String sep t1 = s2 +:+ String sep t2 → s1 = s2 ∧ t1 = t2.
Proof.
  revert s2. induction s1 as [|a s1 IH]; intros [|b s2]; str_simpl.
  - intros _ _ [= ->]. done.
  - intros _ [Hb _]%orb_false_elim [= <- _]. by rewrite Ascii.eqb_refl in Hb.
  - intros [Ha _]%orb_false_elim _ [= -> _]. by rewrite Ascii.eqb_refl in Ha.
  - intros [_ H1]%orb_false_elim [_ H2]%orb_false_elim [= -> Heq].
    destruct (IH s2 H1 H2 Heq) as [-> ->]. done.
Qed.

Lemma emitted_path (os : os_env) (a c f : string) (v : gacha_variant) :
  valid_names os → GachaSummary.emitted os a c f v →
  valid_name a ∧ valid_name c ∧ valid_name f
  ∧ path v = PyStr.replace "\" "/" (GachaSummary.joined a c f).
Proof.
  intros Hvalid Hem.
  destruct (emitted_names os a c f v Hvalid Hem) as (Ha & Hc & Hf).
  destruct Hem as (_ & _ & _ & _ & _ & _ & _ & _ & -> & _).
  destruct (character_path_valid a c Ha Hc) as (Hpath & Hne & Hend).
  split_and!; try done.
  simpl. rewrite join_valid by done. rewrite Hpath.
  unfold GachaSummary.joined. by rewrite !app_assoc.
Qed.

(** X16: on a file system with valid names, none of them with a
    backslash, the path of a variant tells where the variant comes from: two
    emitted variants with the same path have the same anime, the same
    character and the same file. *)
Theorem variant_paths_distinct (os : os_env)
    (a c f a' c' f' : string) (v v' : gacha_variant) :
  valid_names os →
  (∀ p n, n ∈ listing os p → PyStr.mem "\" n = false) →
  GachaSummary.emitted os a c f v →
  GachaSummary.emitted os a' c' f' v' →
  path v = path v' →
  a = a' ∧ c = c' ∧ f = f'.
Proof.
  intros Hvalid Hbs Hem Hem'.
  destruct (emitted_path os a c f v Hvalid Hem) as ([_ Ha] & [_ Hc] & [_ Hf] & ->).
  destruct (emitted_path os a' c' f' v' Hvalid Hem') as ([_ Ha'] & [_ Hc'] & [_ Hf'] & ->).
  destruct Hem as (m & chars & vl & Hw & Hma & Hmc & Hinf & _).
  destruct Hem' as (m' & chars' & vl' & Hw' & Hma' & Hmc' & Hinf' & _).
  destruct (written_character os m a c chars vl Hw Hma Hmc) as (Hina & _ & Hinc & _).
  destruct (written_character os m' a' c' chars' vl' Hw' Hma' Hmc')
    as (Hina' & _ & Hinc' & _).
  rewrite !replace_absent; cycle 1.
  { unfold GachaSummary.joined. rewrite !mem_app.
    rewrite (Hbs _ _ Hina'), (Hbs _ _ Hinc'), (Hbs _ _ Hinf'). reflexivity. }
  { unfold GachaSummary.joined. rewrite !mem_app.
    rewrite (Hbs _ _ Hina), (Hbs _ _ Hinc), (Hbs _ _ Hinf). reflexivity. }
  unfold GachaSummary.joined.
  intros Heq%(inj (String.app Gacha.GACHA_ROOT_DIR)).
  change ("/" +:+ ?x) with (String "/" x) in Heq.
  injection Heq as Heq.
  apply app_sep_inj in Heq as [-> Heq]; [|done..].
  apply app_sep_inj in Heq as [-> ->]; done.
Qed.

(** A property of names that holds for every name of a table holds for
    every listed name. *)
Lemma table_env_names (P : string → bool) (t : list (string * entry)) (w : bool) :
  forallb (λ '(_, e), match e with
                      | EDir names => forallb P names
                      | _ => true
                      end) t = true →
  ∀ p n, n ∈ listing (table_env t w) p → P n = true.
Proof.
  intros Ht p n. rewrite table_listing.
  induction t as [|[q e] t IH]; simpl in *.
  - by intros ?%elem_of_nil.
  - apply andb_prop in Ht as [He Ht]. destruct (String.eqb q p); [|by apply IH].
    destruct e as [|names|]; try by intros ?%elem_of_nil.
    intros Hn. rewrite forallb_forall in He. apply He. by rewrite <- list_elem_of_In.
Qed.

Lemma variant_paths_distinct_witness :
  "Naruto" = "Naruto" ∧ "Sasuke" = "Sasuke" ∧ "Sasuke-7.PNG" = "Sasuke-7.PNG".
Proof.
  eapply (variant_paths_distinct demo_env).
  - apply (table_env_valid_names demo_table true eq_refl).
  - intros p n Hn.
    apply negb_true_iff.
    by apply (table_env_names (λ n, negb (PyStr.mem "\" n)) demo_table true eq_refl p n).
  - apply demo_emitted.
  - apply demo_emitted.
  - reflexivity.
Defined.

(** ** An empty root *)


